(** * Task API (Cloud-Ass2/app.js): handlers over PostgreSQL and Redis

    A shallow embedding of the Express application in [app.js]: the six
    route handlers and [initializeTaskCount], run against a model of the
    two services they talk to.  The handlers are state transformers over
    a pair (database, cache); a thrown error is a value, caught at the
    [try]/[catch] of each handler exactly where the source catches it. *)

From Stdlib Require Import ZArith NArith QArith_base String Ascii List Lia Decimal DecimalZ DecimalPos DecimalN.
From stdpp Require Import base option gmap list.

Set Warnings "-register-all".
Local Open Scope Z_scope.

(** ** JavaScript values *)

Module JS.

(** A JavaScript string is a sequence of UTF-16 code units. *)
Abbreviation jsstring := (list N).

(** A source-text string literal (ASCII) as a JavaScript string. *)
Definition js (s : string) : jsstring :=
  List.map N_of_ascii (list_ascii_of_string s).

(** JSON values, as [express.json()] decodes them and [res.json] encodes
    them.  Objects are finite maps: key order is not observable through
    a [jsonb] column.  A number is a finite double, which is a
    rational. *)
Inductive json : Type :=
  | JNull
  | JBool (b : bool)
  | JNum (q : Q)
  | JStr (s : jsstring)
  | JArr (l : list json)
  | JObj (m : gmap jsstring json).

(** An attribute bag: the own properties of a JSON object. *)
Abbreviation bag := (gmap jsstring json).

(** An integer as a JSON number. *)
Definition JInt (z : Z) : json := JNum (inject_Z z).

(** [!v] is [negb (truthy v)]; [None] is [undefined]. *)
Definition truthy (v : option json) : bool :=
  match v with
  | None => false
  | Some JNull => false
  | Some (JBool b) => b
  | Some (JNum q) => negb (Qnum q =? 0)
  | Some (JStr s) => match s with [] => false | _ => true end
  | Some (JArr _) => true
  | Some (JObj _) => true
  end.

(** [typeof v === "string"]. *)
Definition typeof_string (v : option json) : bool :=
  match v with
  | Some (JStr _) => true
  | _ => false
  end.

(** [a ?? b]: [b] when [a] is [undefined] or [null]. *)
Definition nullish (a : option json) (b : json) : json :=
  match a with
  | None => b
  | Some JNull => b
  | Some v => v
  end.

(** WhiteSpace and LineTerminator code points of ECMAScript, the set
    both [String.prototype.trim] and [parseInt] strip. *)
Definition is_ws (c : N) : bool :=
  ((9 <=? c) && (c <=? 13) || (c =? 32) || (c =? 160) || (c =? 5760)
   || (8192 <=? c) && (c <=? 8202) || (c =? 8232) || (c =? 8233)
   || (c =? 8239) || (c =? 8287) || (c =? 12288) || (c =? 65279))%N.

Fixpoint trim_start (s : jsstring) : jsstring :=
  match s with
  | c :: r => if is_ws c then trim_start r else s
  | [] => []
  end.

Definition trim_end (s : jsstring) : jsstring :=
  rev (trim_start (rev s)).

(** [s.trim()]. *)
Definition trim (s : jsstring) : jsstring := trim_end (trim_start s).

Definition is_empty (s : jsstring) : bool :=
  match s with [] => true | _ => false end.

(** *** Decimal numerals *)

Fixpoint units (d : uint) : jsstring :=
  match d with
  | Nil => []
  | D0 d => 48%N :: units d
  | D1 d => 49%N :: units d
  | D2 d => 50%N :: units d
  | D3 d => 51%N :: units d
  | D4 d => 52%N :: units d
  | D5 d => 53%N :: units d
  | D6 d => 54%N :: units d
  | D7 d => 55%N :: units d
  | D8 d => 56%N :: units d
  | D9 d => 57%N :: units d
  end.

(** [String(n)] for an integer [n] (below the 1e21 switch to exponent
    notation): optional minus sign, digits, no leading zero. *)
Definition String_of_int (n : Z) : jsstring :=
  match Z.to_int n with
  | Decimal.Pos d => units d
  | Decimal.Neg d => 45%N :: units d
  end.

(** The longest prefix of decimal digits. *)
Fixpoint digits (s : jsstring) : uint :=
  match s with
  | [] => Nil
  | c :: r =>
      if (c =? 48)%N then D0 (digits r) else
      if (c =? 49)%N then D1 (digits r) else
      if (c =? 50)%N then D2 (digits r) else
      if (c =? 51)%N then D3 (digits r) else
      if (c =? 52)%N then D4 (digits r) else
      if (c =? 53)%N then D5 (digits r) else
      if (c =? 54)%N then D6 (digits r) else
      if (c =? 55)%N then D7 (digits r) else
      if (c =? 56)%N then D8 (digits r) else
      if (c =? 57)%N then D9 (digits r) else Nil
  end.

Definition digits_value (s : jsstring) : option Z :=
  match digits s with
  | Nil => None
  | d => Some (Z.of_uint d)
  end.

(** The mathematical value [parseInt(s, 10)] reads: leading white space
    is skipped, then an optional sign, then the longest run of digits;
    [None] is NaN (no digit). *)
Definition parseInt_value (s : jsstring) : option Z :=
  match trim_start s with
  | c :: r =>
      if (c =? 45)%N then Z.opp <$> digits_value r
      else if (c =? 43)%N then digits_value r
      else digits_value (c :: r)
  | [] => None
  end.

(** A Number is an IEEE-754 double: an integer is rounded to 53
    significant bits, ties to even. *)
Definition round53 (z : Z) : Z :=
  let a := Z.abs z in
  let sh := Z.log2 a + 1 - 53 in
  if sh <=? 0 then z else
  let q := Z.shiftr a sh in
  let r := a - Z.shiftl q sh in
  let half := Z.shiftl 1 (sh - 1) in
  let q' := if (half <? r) || ((r =? half) && Z.odd q) then q + 1 else q in
  Z.sgn z * Z.shiftl q' sh.

(** Integers at or beyond this bound round to Infinity. *)
Definition double_limit : Z := 2 ^ 1024 - 2 ^ 970.

(** [parseInt(s, 10)] as the JSON that [res.json] writes for it: NaN and
    the infinities are written as [null]. *)
Definition parseInt (s : jsstring) : json :=
  match parseInt_value s with
  | Some z => if Z.abs z <? double_limit then JInt (round53 z) else JNull
  | None => JNull
  end.

(** [String(v)] of a value that may be [null], as [parseInt] applies it
    to its argument. *)
Definition ToString (v : option jsstring) : jsstring :=
  match v with
  | Some s => s
  | None => js "null"
  end.

End JS.

(** ** PostgreSQL, as reached through [pool.query(text, values)]

    node-postgres sends the statement text to the server unchanged,
    together with the values as text.  The server parses the text, binds
    the values to the positional parameters [$1], [$2], ... and runs the
    statement. *)

Module Pg.
Import JS.

Local Open Scope string_scope.

Inductive token : Type :=
  | Lit (s : string)
  | Param (n : nat).

Inductive lex_state : Type :=
  | InText
  | AfterDollar
  | InParam (n : nat).

Definition digit_of (c : ascii) : option nat :=
  let n := nat_of_ascii c in
  if (48 <=? n)%nat && (n <=? 57)%nat then Some (n - 48)%nat else None.

Definition push_char (c : ascii) (ts : list token) : list token :=
  match ts with
  | Lit s :: r => Lit (String c s) :: r
  | _ => Lit (String c EmptyString) :: ts
  end.

(** The server's scanner, for what the statements of this application
    contain.  A dollar sign followed by digits is a positional
    parameter.  A dollar sign followed by anything else starts no token:
    [$name] is not a parameter, and with no closing dollar sign it does
    not open a dollar-quoted literal either.  The statement is then a
    syntax error: [None].  (Dollar-quoted literals, which no statement
    of the application uses, are not scanned.) *)
Fixpoint lex (st : lex_state) (s : string) : option (list token) :=
  match s with
  | EmptyString =>
      match st with
      | InText => Some []
      | AfterDollar => None
      | InParam n => Some [Param n]
      end
  | String c r =>
      match st with
      | InText =>
          if Ascii.eqb c "$" then lex AfterDollar r
          else push_char c <$> lex InText r
      | AfterDollar =>
          match digit_of c with
          | Some d => lex (InParam d) r
          | None => None
          end
      | InParam n =>
          match digit_of c with
          | Some d => lex (InParam (10 * n + d)) r
          | None =>
              if Ascii.eqb c "$" then cons (Param n) <$> lex AfterDollar r
              else (fun ts => Param n :: push_char c ts) <$> lex InText r
          end
      end
  end.

(** The statements over table [tasks] that the model runs: the forms
    the application sends and, for the insert and the update, the forms
    with positional parameters. *)
Inductive stmt : Type :=
  | CountTasks
  | SelectAll
  | SelectById
  | DeleteById
  | InsertData
  | UpdateData (data_param id_param : nat).

(** A text outside these forms is outside the model and is refused. *)
Definition parse (ts : list token) : option stmt :=
  match ts with
  | [Lit s] =>
      if String.eqb s "SELECT COUNT(*)::int AS count FROM tasks;" then Some CountTasks
      else if String.eqb s "SELECT * FROM tasks;" then Some SelectAll
      else None
  | [Lit a; Param 1; Lit b] =>
      if String.eqb a "SELECT * FROM tasks WHERE id = " && String.eqb b ";"
      then Some SelectById
      else if String.eqb a "DELETE FROM tasks WHERE id = " && String.eqb b " RETURNING *;"
      then Some DeleteById
      else if String.eqb a "INSERT INTO tasks (data) VALUES (" && String.eqb b "::jsonb) RETURNING id;"
      then Some InsertData
      else None
  | [Lit a; Param p; Lit b; Param q; Lit c] =>
      if String.eqb a "UPDATE tasks SET data = " && String.eqb b "::jsonb WHERE id = "
         && String.eqb c ";"
         && ((p =? 1)%nat && (q =? 2)%nat || (p =? 2)%nat && (q =? 1)%nat)
      then Some (UpdateData p q)
      else None
  | _ => None
  end.

(** A value of the [values] array.  Both kinds travel as text: [PId z]
    is a path segment that reads as the integer [z], [PDoc b] is the
    text [JSON.stringify] gives for the object [b]. *)
Inductive pval : Type :=
  | PId (z : Z)
  | PDoc (b : bag).

(** Modelled from the spec: the declaration of table [tasks] is not part
    of the sources.  A task is a store-assigned, unique, sequence-based
    identifier and an attribute bag held in one [jsonb] column.  The
    identifier column is taken to be [serial], a 32-bit integer fed by
    a sequence: the integer type whose values node-postgres hands back
    as numbers, as the answers [{id: 1}] of the specification have
    them. *)
Record db : Type := mkDb {
  tasks : gmap Z bag;
  tasks_id_seq : Z
}.

Definition int4_min : Z := -2147483648.
Definition int4_max : Z := 2147483647.

Definition in_int4 (z : Z) : bool := (int4_min <=? z)%Z && (z <=? int4_max)%Z.

(** The integers that read as a value of the identifier column: those of
    the 32-bit range.  A table holds no row whose identifier is outside
    the type of its column, so an identifier that has a row reads as
    one. *)
Definition reads_as_id (d : db) (z : Z) : bool :=
  match tasks d !! z with
  | Some _ => true
  | None => in_int4 z
  end.

(** A row of a result: the columns the statement returns. *)
Record tuple : Type := mkTuple {
  col_id : option Z;
  col_data : option bag;
  col_count : option Z
}.

Record result : Type := mkResult {
  rows : list tuple;
  rowCount : nat
}.

Inductive error : Type :=
  | syntax_error
  | protocol_violation
  | invalid_text_representation
  | numeric_value_out_of_range
  | unique_violation.

Definition task_tuple (r : Z * bag) : tuple :=
  mkTuple (Some r.1) (Some r.2) None.

(** The text of a value in an identifier position: an integer outside
    the column's range is refused, and so is the text of an object. *)
Definition as_id (d : db) (v : pval) : error + Z :=
  match v with
  | PId z => if reads_as_id d z then inr z else inl numeric_value_out_of_range
  | PDoc _ => inl invalid_text_representation
  end.

(** An integer text in a [jsonb] position is a scalar document, not an
    attribute bag; the table of the model holds bags only. *)
Definition as_doc (v : pval) : error + bag :=
  match v with
  | PDoc b => inr b
  | PId _ => inl invalid_text_representation
  end.

Definition select_by_id (d : db) (id : Z) : result :=
  match tasks d !! id with
  | Some b => mkResult [task_tuple (id, b)] 1
  | None => mkResult [] 0
  end.

(** Bind and run.  The values must be as many as the parameters, and
    each must read as a value of the type of its position.  The
    count is cast to a 32-bit integer, which fails beyond [int4_max].
    [DELETE ... RETURNING *] returns the rows it removed.  The insert
    takes its id from the sequence, which advances even on failure. *)
Definition exec (st : stmt) (vs : list pval) (d : db) : (error + result) * db :=
  match st, vs with
  | CountTasks, [] =>
      let n := Z.of_nat (size (tasks d)) in
      if (n <=? int4_max)%Z
      then (inr (mkResult [mkTuple None None (Some n)] 1), d)
      else (inl numeric_value_out_of_range, d)
  | SelectAll, [] =>
      let l := map_to_list (tasks d) in
      (inr (mkResult (task_tuple <$> l) (length l)), d)
  | SelectById, [v] =>
      match as_id d v with
      | inr id => (inr (select_by_id d id), d)
      | inl e => (inl e, d)
      end
  | DeleteById, [v] =>
      match as_id d v with
      | inr id => (inr (select_by_id d id), mkDb (delete id (tasks d)) (tasks_id_seq d))
      | inl e => (inl e, d)
      end
  | InsertData, [v] =>
      match as_doc v with
      | inr b =>
          let id := tasks_id_seq d in
          match tasks d !! id with
          | None =>
              (inr (mkResult [mkTuple (Some id) None None] 1),
               mkDb (<[id := b]> (tasks d)) (id + 1)%Z)
          | Some _ => (inl unique_violation, mkDb (tasks d) (id + 1)%Z)
          end
      | inl e => (inl e, d)
      end
  | UpdateData p q, [v1; v2] =>
      let vd := if (p =? 1)%nat then v1 else v2 in
      let vi := if (q =? 1)%nat then v1 else v2 in
      match as_doc vd, as_id d vi with
      | inr b, inr id =>
          match tasks d !! id with
          | Some _ => (inr (mkResult [] 1), mkDb (<[id := b]> (tasks d)) (tasks_id_seq d))
          | None => (inr (mkResult [] 0), d)
          end
      | inl e, _ => (inl e, d)
      | _, inl e => (inl e, d)
      end
  | _, _ => (inl protocol_violation, d)
  end.

(** [pool.query(text, values)]. *)
Definition query (text : string) (vs : list pval) (d : db) : (error + result) * db :=
  match lex InText text with
  | None => (inl syntax_error, d)
  | Some ts =>
      match parse ts with
      | None => (inl syntax_error, d)
      | Some st => exec st vs d
      end
  end.

End Pg.

(** ** Redis, as reached through [redisClient] *)

Module Redis.
Import JS.

Abbreviation store := (gmap jsstring jsstring).

Inductive error : Type :=
  | not_an_integer
  | would_overflow.

Definition int64_min : Z := - 2 ^ 63.
Definition int64_max : Z := 2 ^ 63 - 1.

Definition in_int64 (z : Z) : bool := (int64_min <=? z) && (z <=? int64_max).

(** The integer a stored string stands for: the server accepts exactly
    the canonical decimal numerals of the signed 64-bit range (no white
    space, no plus sign, no leading zero, no [-0]). *)
Definition integer_of (v : jsstring) : option Z :=
  let candidate :=
    match v with
    | c :: r => if (c =? 45)%N then Z.opp <$> digits_value r else digits_value v
    | [] => None
    end in
  match candidate with
  | Some z => if bool_decide (String_of_int z = v) && in_int64 z then Some z else None
  | None => None
  end.

(** [GET key]. *)
Definition get (k : jsstring) (s : store) : option jsstring := s !! k.

(** [SET key value]. *)
Definition set (k v : jsstring) (s : store) : store := <[k := v]> s.

(** [INCR] and [DECR]: a missing key counts as 0; the new value is
    written as a decimal numeral and returned. *)
Definition incr_by (delta : Z) (k : jsstring) (s : store) : (error + Z) * store :=
  let old :=
    match s !! k with
    | None => Some 0
    | Some v => integer_of v
    end in
  match old with
  | None => (inl not_an_integer, s)
  | Some z =>
      if in_int64 (z + delta)
      then (inr (z + delta), <[k := String_of_int (z + delta)]> s)
      else (inl would_overflow, s)
  end.

Definition incr : jsstring → store → (error + Z) * store := incr_by 1.
Definition decr : jsstring → store → (error + Z) * store := incr_by (-1).

End Redis.

(** ** The application *)

Module App.
Import JS.

(** The two services the process holds connections to. *)
Record world : Type := mkWorld {
  database : Pg.db;
  cache : Redis.store
}.

(** What an [await] can throw. *)
Inductive exn : Type :=
  | PgError (e : Pg.error)
  | RedisError (e : Redis.error)
  | TypeError.

(** An [async] body: it may change the services and then either yields
    a value or throws.  What was written before a throw stays written. *)
Definition M (A : Type) : Type := world → (exn + A) * world.

Definition ret {A} (a : A) : M A := fun w => (inr a, w).
Definition throw {A} (e : exn) : M A := fun w => (inl e, w).
Definition bind {A B} (m : M A) (k : A → M B) : M B :=
  fun w =>
    match m w with
    | (inr a, w') => k a w'
    | (inl e, w') => (inl e, w')
    end.

#[local] Notation "x ⇐ m ;; k" := (bind m (fun x => k))
  (at level 100, m at next level, right associativity).

(** [await pool.query(text, values)]. *)
Definition pool_query (text : string) (vs : list Pg.pval) : M Pg.result :=
  fun w =>
    match Pg.query text vs (database w) with
    | (inr r, d) => (inr r, mkWorld d (cache w))
    | (inl e, d) => (inl (PgError e), mkWorld d (cache w))
    end.

Definition redis_get (k : jsstring) : M (option jsstring) :=
  fun w => (inr (Redis.get k (cache w)), w).

Definition redis_set (k v : jsstring) : M unit :=
  fun w => (inr tt, mkWorld (database w) (Redis.set k v (cache w))).

Definition redis_op (op : jsstring → Redis.store → (Redis.error + Z) * Redis.store)
    (k : jsstring) : M Z :=
  fun w =>
    match op k (cache w) with
    | (inr z, c) => (inr z, mkWorld (database w) c)
    | (inl e, c) => (inl (RedisError e), mkWorld (database w) c)
    end.

Definition redis_incr : jsstring → M Z := redis_op Redis.incr.
Definition redis_decr : jsstring → M Z := redis_op Redis.decr.

(** [rows[0]], about to be dereferenced: a property read on [undefined]
    throws. *)
Definition first_row (r : Pg.result) : M Pg.tuple :=
  match Pg.rows r with
  | t :: _ => ret t
  | [] => throw TypeError
  end.

(** An object literal whose property values may be [undefined]; such
    properties are not written by [JSON.stringify].  The property names
    of each literal of the application are distinct. *)
Definition object (props : list (jsstring * option json)) : bag :=
  list_to_map (omap (fun p => pair p.1 <$> p.2) props).

(** [String(v)] for a count column. *)
Definition String_of_count (v : option Z) : jsstring :=
  match v with
  | Some n => String_of_int n
  | None => js "undefined"
  end.

(** [{ ...v }] for a [data] column: [undefined] spreads to nothing. *)
Definition spread (v : option bag) : bag := default ∅ v.

Record response : Type := mkResponse {
  status : Z;
  body : option json
}.

Definition json_response (code : Z) (props : list (jsstring * option json)) : response :=
  mkResponse code (Some (JObj (object props))).

Definition error_response (code : Z) (msg : string) : response :=
  json_response code [(js "error", Some (JStr (js msg)))].

Definition taskCount : jsstring := js "taskCount".

(** [async function initializeTaskCount()]. *)
Definition initializeTaskCount : M unit :=
  cached ⇐ redis_get taskCount ;;
  match cached with
  | Some _ => ret tt
  | None =>
      res ⇐ pool_query "SELECT COUNT(*)::int AS count FROM tasks;" [] ;;
      row ⇐ first_row res ;;
      redis_set taskCount (String_of_count (Pg.col_count row))
  end.

(** The [catch] of a handler: log and answer 500. *)
Definition try_catch (m : M response) (w : world) : response * world :=
  match m w with
  | (inr r, w') => (r, w')
  | (inl _, w') => (error_response 500 "Server error", w')
  end.

(** The guard of [POST /tasks]:
    [!title || typeof title !== "string" || title.trim() === ""].
    The last disjunct is evaluated on strings only. *)
Definition title_rejected (title : option json) : bool :=
  negb (truthy title) || negb (typeof_string title)
  || match title with
     | Some (JStr s) => is_empty (trim s)
     | _ => false
     end.

(** The [payload] object of [POST /tasks]. *)
Definition payload (title description status : option json) : bag :=
  object [(js "title", title);
          (js "description", Some (nullish description JNull));
          (js "status", Some (nullish status (JStr (js "pending"))))].

(** [app.post("/tasks", ...)]. *)
Definition post_tasks (req_body : bag) (w : world) : response * world :=
  let title := req_body !! js "title" in
  let description := req_body !! js "description" in
  let status := req_body !! js "status" in
  if title_rejected title
  then (error_response 400 "Title is required", w)
  else try_catch (
    insert ⇐ pool_query "INSERT INTO tasks (data) VALUES ($datavalues::jsonb) RETURNING id;"
                        [Pg.PDoc (payload title description status)] ;;
    _ ⇐ redis_incr taskCount ;;
    row ⇐ first_row insert ;;
    ret (json_response 201 [(js "id", JInt <$> Pg.col_id row)])) w.

Definition task_json (row : Pg.tuple) : json :=
  JObj (object [(js "id", JInt <$> Pg.col_id row);
                (js "data", JObj <$> Pg.col_data row)]).

(** [app.get("/tasks", ...)]. *)
Definition get_tasks : world → response * world :=
  try_catch (
    res ⇐ pool_query "SELECT * FROM tasks;" [] ;;
    ret (mkResponse 200 (Some (JArr (task_json <$> Pg.rows res))))).

(** [app.get("/tasks/:id", ...)]. *)
Definition get_task (id : Z) : world → response * world :=
  try_catch (
    res ⇐ pool_query "SELECT * FROM tasks WHERE id = $1;" [Pg.PId id] ;;
    match Pg.rows res with
    | row :: _ => ret (mkResponse 200 (Some (task_json row)))
    | [] => ret (error_response 404 "Task not found")
    end).

(** [app.put("/tasks/:id", ...)]; [updatedData] is
    [{ ...existingData, ...req.body }]. *)
Definition put_task (id : Z) (req_body : bag) : world → response * world :=
  try_catch (
    res ⇐ pool_query "SELECT * FROM tasks WHERE id = $1;" [Pg.PId id] ;;
    match Pg.rows res with
    | [] => ret (error_response 404 "Task not found")
    | row :: _ =>
        let existingData := Pg.col_data row in
        let updatedData := req_body ∪ spread existingData in
        _ ⇐ pool_query "UPDATE tasks SET data = $datavalues::jsonb WHERE id = $1;"
                       [Pg.PDoc updatedData; Pg.PId id] ;;
        ret (json_response 200 [(js "id", JInt <$> Pg.col_id row);
                                (js "data", Some (JObj updatedData))])
    end).

(** [app.delete("/tasks/:id", ...)]. *)
Definition delete_task (id : Z) : world → response * world :=
  try_catch (
    result ⇐ pool_query "DELETE FROM tasks WHERE id = $1 RETURNING *;" [Pg.PId id] ;;
    if (Pg.rowCount result =? 0)%nat
    then ret (error_response 404 "Task not found")
    else
      _ ⇐ redis_decr taskCount ;;
      ret (mkResponse 204 None)).

(** [app.get("/stats", ...)]. *)
Definition get_stats : world → response * world :=
  try_catch (
    _ ⇐ initializeTaskCount ;;
    count ⇐ redis_get taskCount ;;
    ret (json_response 200 [(js "taskCount", Some (parseInt (ToString count)))])).

(** A request, after routing and body parsing.  The body is the object
    [express.json()] produced; the [:id] segment is the integer it
    reads as, of any size. *)
Inductive request : Type :=
  | POST_tasks (req_body : bag)
  | GET_tasks
  | GET_task (id : Z)
  | PUT_task (id : Z) (req_body : bag)
  | DELETE_task (id : Z)
  | GET_stats.

Definition handle (rq : request) : world → response * world :=
  match rq with
  | POST_tasks b => post_tasks b
  | GET_tasks => get_tasks
  | GET_task id => get_task id
  | PUT_task id b => put_task id b
  | DELETE_task id => delete_task id
  | GET_stats => get_stats
  end.

(** Requests served one after the other. *)
Fixpoint serve (rqs : list request) (w : world) : list response * world :=
  match rqs with
  | [] => ([], w)
  | rq :: rest =>
      let (r, w') := handle rq w in
      let (rs, w'') := serve rest w' in
      (r :: rs, w'')
  end.

End App.

(** ** Vocabulary of the specification *)

Module Spec.
Import JS App.

(** A title the specification rejects: missing, blank, made of white
    space only, or not a string. *)
Definition title_invalid (b : bag) : Prop :=
  match b !! js "title" with
  | None => True
  | Some (JStr s) => forallb is_ws s = true
  | Some _ => True
  end.

(** A successful creation: [POST /tasks] answered 201. *)
Definition created (rq : request) (r : response) : bool :=
  match rq with
  | POST_tasks _ => status r =? 201
  | _ => false
  end.

(** A successful deletion: [DELETE /tasks/:id] answered 204. *)
Definition deleted (rq : request) (r : response) : bool :=
  match rq with
  | DELETE_task _ => status r =? 204
  | _ => false
  end.

(** How many requests of a run were answered in a given way. *)
Fixpoint tally (hit : request → response → bool)
    (rqs : list request) (rs : list response) : Z :=
  match rqs, rs with
  | rq :: rqs', r :: rs' => (if hit rq r then 1 else 0) + tally hit rqs' rs'
  | _, _ => 0
  end.

(** The cardinality of table [tasks]. *)
Definition row_count (w : world) : Z :=
  Z.of_nat (size (Pg.tasks (database w))).

(** The cached counter agrees with the table: it is the numeral of the
    row count, or it is missing while the table is empty. *)
Definition in_step (w : world) : Prop :=
  match cache w !! taskCount with
  | None => row_count w = 0
  | Some v => v = String_of_int (row_count w)
  end.

(** The counter key, when present, holds the decimal numeral of an
    integer (of the range the cache computes in). *)
Definition counter_ok (w : world) : Prop :=
  ∀ v, cache w !! taskCount = Some v →
       ∃ z, Redis.in_int64 z = true ∧ v = String_of_int z.

(** What the three handlers that take an id answer when the id has no
    row: 404 when the id is of the column's range, and the 500 of the
    [catch] when the server refuses it as out of range. *)
Definition no_row_answer (id : Z) : response :=
  if Pg.in_int4 id
  then error_response 404 "Task not found"
  else error_response 500 "Server error".

(** The keys [POST /tasks] writes. *)
Definition created_keys : gset jsstring :=
  {[ js "title"; js "description"; js "status" ]}.

End Spec.

(** ** Worlds and bodies of the scenarios *)

Module Scenario.
Import JS App.

(** A new deployment: no task, sequence at 1, nothing cached. *)
Definition empty_world : world := mkWorld (Pg.mkDb ∅ 1) ∅.

Definition buy_milk : bag := {[ js "title" := JStr (js "Buy milk") ]}.

Definition buy_milk_stored : bag :=
  {[ js "title" := JStr (js "Buy milk");
     js "description" := JNull;
     js "status" := JStr (js "pending") ]}.

Definition blank_title : bag := {[ js "title" := JStr (js "   ") ]}.

Definition xy (status : string) : bag :=
  {[ js "title" := JStr (js "x");
     js "description" := JStr (js "y");
     js "status" := JStr (js status) ]}.

Definition status_done : bag := {[ js "status" := JStr (js "done") ]}.

(** One task, id 1, nothing cached. *)
Definition one_task_world : world :=
  mkWorld (Pg.mkDb {[ 1 := xy "pending" ]} 2) ∅.

(** Three durable rows and the counter key evicted. *)
Definition three_rows_world : world :=
  mkWorld (Pg.mkDb {[ 1 := xy "pending"; 2 := xy "done"; 3 := buy_milk_stored ]} 4) ∅.

(** Three durable rows and a stale counter that reads "0". *)
Definition stale_zero_world : world :=
  mkWorld (database three_rows_world) {[ taskCount := js "0" ]}.

End Scenario.

(** ** Vocabulary for the further properties *)

Module Further.
Import JS App Scenario.

(** The entry [{id, data}] that the read handlers write for a row. *)
Definition task_entry (id : Z) (b : bag) : json :=
  JObj {[ js "id" := JInt id; js "data" := JObj b ]}.

(** The table after [DELETE FROM tasks WHERE id = $1]. *)
Definition without (id : Z) (d : Pg.db) : Pg.db :=
  Pg.mkDb (delete id (Pg.tasks d)) (Pg.tasks_id_seq d).

(** The status codes the application writes anywhere. *)
Definition known_status (code : Z) : bool :=
  (code =? 200) || (code =? 204) || (code =? 400) || (code =? 404) || (code =? 500).

(** Requests that only read, or that the server refuses to run. *)
Definition leaves_alone (rq : request) : bool :=
  match rq with
  | DELETE_task _ | GET_stats => false
  | _ => true
  end.

(** A body with a key the application does not know. *)
Definition buy_milk_owned : bag := <[ js "owner" := JStr (js "me") ]> buy_milk.

(** Three rows and a counter in step with them. *)
Definition counted_world : world :=
  mkWorld (database three_rows_world) {[ taskCount := js "3" ]}.

(** Three rows, a counter that is no numeral, and a key of another use. *)
Definition garbled_world : world :=
  mkWorld (database three_rows_world)
    {[ taskCount := js "three"; js "session" := js "abc" ]}.

End Further.

(** * Properties *)

Import JS App Spec Scenario.

Arguments Pg.query : simpl never.
Arguments Redis.incr_by : simpl never.

(** ** The models at work *)

Section Checks.
Local Open Scope string_scope.

Example lex_select_by_id :
  Pg.lex Pg.InText "SELECT * FROM tasks WHERE id = $1;"
  = Some [Pg.Lit "SELECT * FROM tasks WHERE id = "; Pg.Param 1; Pg.Lit ";"].
Proof. reflexivity. Qed.

Example lex_named_placeholder :
  Pg.lex Pg.InText "INSERT INTO tasks (data) VALUES ($datavalues::jsonb) RETURNING id;"
  = None.
Proof. reflexivity. Qed.

Example trim_spaces : trim (js "  a b  ") = js "a b" ∧ trim (js "   ") = [].
Proof. split; reflexivity. Qed.

Example parseInt_prefix :
  parseInt (js " -12ab") = JInt (-12) ∧ parseInt (js "abc") = JNull
  ∧ parseInt (ToString None) = JNull.
Proof. repeat split; reflexivity. Qed.

Example parseInt_rounds :
  parseInt (js "9007199254740993") = JInt 9007199254740992
  ∧ parseInt (js "9223372036854775807") = JInt 9223372036854775808.
Proof. split; vm_compute; reflexivity. Qed.

Example incr_missing_key :
  Redis.incr taskCount ∅ = (inr 1, {[ taskCount := js "1" ]})
  ∧ Redis.decr taskCount ∅ = (inr (-1), {[ taskCount := js "-1" ]}).
Proof. split; vm_compute; reflexivity. Qed.

Example incr_not_a_numeral :
  Redis.incr taskCount {[ taskCount := js "007" ]}
  = (inl Redis.not_an_integer, {[ taskCount := js "007" ]}).
Proof. vm_compute. reflexivity. Qed.

End Checks.

(** ** Numerals *)

Section Numerals.

Lemma digits_units (d : uint) : digits (units d) = d.
Proof. induction d; simpl; congruence. Qed.

Lemma units_head (d : uint) :
  d ≠ Nil → ∃ c r, units d = c :: r ∧ (48 <= c <= 57)%N.
Proof.
  destruct d; intros Hd; try congruence; simpl; do 2 eexists; (split; [reflexivity | lia]).
Qed.

Lemma digits_value_units (d : uint) :
  d ≠ Nil → digits_value (units d) = Some (Z.of_uint d).
Proof.
  intros Hd. unfold digits_value. rewrite digits_units.
  destruct d; congruence.
Qed.

Lemma to_int_cases (z : Z) :
  ∃ d, d ≠ Nil ∧
    (Z.to_int z = Decimal.Pos d ∧ z = Z.of_uint d
     ∨ Z.to_int z = Decimal.Neg d ∧ z = - Z.of_uint d).
Proof.
  pose proof (DecimalZ.of_to z) as Hz.
  destruct z as [|p|p]; simpl in *.
  - exists (D0 Nil). split; [discriminate | left; split; reflexivity].
  - exists (Pos.to_uint p). split; [apply DecimalPos.Unsigned.to_uint_nonnil |].
    left. split; [reflexivity | symmetry; exact Hz].
  - exists (Pos.to_uint p). split; [apply DecimalPos.Unsigned.to_uint_nonnil |].
    right. split; [reflexivity | symmetry; exact Hz].
Qed.

Lemma digit_not_ws (c : N) : (48 <= c <= 57)%N → is_ws c = false.
Proof.
  intros Hc. unfold is_ws.
  repeat match goal with
  | |- context [(?a <=? ?b)%N] => destruct (N.leb_spec a b); try lia
  | |- context [(?a =? ?b)%N] => destruct (N.eqb_spec a b); try lia
  end; reflexivity.
Qed.

(** Reading back a numeral written by [String]. *)
Lemma parseInt_value_String (z : Z) : parseInt_value (String_of_int z) = Some z.
Proof.
  destruct (to_int_cases z) as (d & Hd & [[E ->] | [E ->]]);
    unfold parseInt_value, String_of_int; rewrite E.
  - destruct (units_head d Hd) as (c & r & Hu & Hc).
    pose proof (digits_value_units d Hd) as Hv. rewrite Hu in *.
    cbn [trim_start]. rewrite (digit_not_ws c Hc).
    destruct (N.eqb_spec c 45); [lia |].
    destruct (N.eqb_spec c 43); [lia | exact Hv].
  - cbn [trim_start]. change (is_ws 45) with false. cbn iota.
    rewrite N.eqb_refl, (digits_value_units d Hd). reflexivity.
Qed.

Lemma integer_of_String (z : Z) :
  Redis.in_int64 z = true → Redis.integer_of (String_of_int z) = Some z.
Proof.
  intros Hr. unfold Redis.integer_of.
  assert (match String_of_int z with
          | c :: r => if (c =? 45)%N then Z.opp <$> digits_value r
                      else digits_value (String_of_int z)
          | [] => None
          end = Some z) as ->.
  { destruct (to_int_cases z) as (d & Hd & [[E ->] | [E ->]]);
      unfold String_of_int; rewrite E.
    - destruct (units_head d Hd) as (c & r & Hu & Hc).
      pose proof (digits_value_units d Hd) as Hv. rewrite Hu in *.
      destruct (N.eqb_spec c 45); [lia | exact Hv].
    - rewrite N.eqb_refl, (digits_value_units d Hd). reflexivity. }
  rewrite Hr, bool_decide_eq_true_2; reflexivity.
Qed.

Lemma round53_small (z : Z) : Z.abs z < 2 ^ 53 → round53 z = z.
Proof.
  intros Hz. unfold round53.
  assert (Z.log2 (Z.abs z) < 53) as Hl.
  { destruct (Z.eq_dec (Z.abs z) 0) as [-> | Hne]; [reflexivity |].
    apply Z.log2_lt_pow2; lia. }
  destruct (Z.leb_spec (Z.log2 (Z.abs z) + 1 - 53) 0); [reflexivity | lia].
Qed.

Lemma parseInt_String (z : Z) : Z.abs z < 2 ^ 53 → parseInt (String_of_int z) = JInt z.
Proof.
  intros Hz. unfold parseInt. rewrite parseInt_value_String, round53_small by exact Hz.
  assert (Z.abs z < double_limit) as Hlt.
  { eapply Z.lt_trans; [exact Hz | reflexivity]. }
  apply Z.ltb_lt in Hlt. rewrite Hlt. reflexivity.
Qed.

Lemma parseInt_int64 (z : Z) :
  Redis.in_int64 z = true → ∃ k, parseInt (String_of_int z) = JInt k.
Proof.
  intros Hr. unfold parseInt. rewrite parseInt_value_String.
  assert (Z.abs z < double_limit) as Hlt.
  { unfold Redis.in_int64, Redis.int64_min, Redis.int64_max in Hr.
    apply andb_true_iff in Hr as [H1 H2]. apply Z.leb_le in H1, H2.
    apply Z.le_lt_trans with (2 ^ 63); [lia | reflexivity]. }
  apply Z.ltb_lt in Hlt. rewrite Hlt. eauto.
Qed.

Lemma trim_start_ws (s : jsstring) : forallb is_ws s = true → trim_start s = [].
Proof.
  induction s as [|c r IH]; simpl; [reflexivity |].
  intros H. apply andb_true_iff in H as [Hc Hr]. rewrite Hc. auto.
Qed.

Lemma trim_ws (s : jsstring) : forallb is_ws s = true → trim s = [].
Proof. intros H. unfold trim. rewrite trim_start_ws by exact H. reflexivity. Qed.

End Numerals.

(** ** What the server makes of each statement text of [app.js] *)

Section Statements.
Local Open Scope string_scope.

Variable d : Pg.db.

Lemma query_count :
  Pg.query "SELECT COUNT(*)::int AS count FROM tasks;" [] d =
  Pg.exec Pg.CountTasks [] d.
Proof. reflexivity. Qed.

Lemma query_select_all :
  Pg.query "SELECT * FROM tasks;" [] d = Pg.exec Pg.SelectAll [] d.
Proof. reflexivity. Qed.

Lemma query_select_by_id (id : Z) :
  Pg.query "SELECT * FROM tasks WHERE id = $1;" [Pg.PId id] d =
  (if Pg.reads_as_id d id
   then inr (Pg.select_by_id d id)
   else inl Pg.numeric_value_out_of_range, d).
Proof.
  change (Pg.query _ _ d) with (Pg.exec Pg.SelectById [Pg.PId id] d).
  unfold Pg.exec, Pg.as_id. destruct (Pg.reads_as_id d id); reflexivity.
Qed.

Lemma query_delete_by_id (id : Z) :
  Pg.query "DELETE FROM tasks WHERE id = $1 RETURNING *;" [Pg.PId id] d =
  if Pg.reads_as_id d id
  then (inr (Pg.select_by_id d id),
        Pg.mkDb (delete id (Pg.tasks d)) (Pg.tasks_id_seq d))
  else (inl Pg.numeric_value_out_of_range, d).
Proof.
  change (Pg.query _ _ d) with (Pg.exec Pg.DeleteById [Pg.PId id] d).
  unfold Pg.exec, Pg.as_id. destruct (Pg.reads_as_id d id); reflexivity.
Qed.

Lemma reads_as_id_row (id : Z) (b : bag) :
  Pg.tasks d !! id = Some b → Pg.reads_as_id d id = true.
Proof. intros H. unfold Pg.reads_as_id. rewrite H. reflexivity. Qed.

Lemma reads_as_id_no_row (id : Z) :
  Pg.tasks d !! id = None → Pg.reads_as_id d id = Pg.in_int4 id.
Proof. intros H. unfold Pg.reads_as_id. rewrite H. reflexivity. Qed.

(** [$datavalues] is not a positional parameter: the text of the
    insert does not get past the scanner, whatever the values are. *)
Lemma query_insert_rejected (vs : list Pg.pval) :
  Pg.query "INSERT INTO tasks (data) VALUES ($datavalues::jsonb) RETURNING id;" vs d =
  (inl Pg.syntax_error, d).
Proof. reflexivity. Qed.

(** The same for the text of the update. *)
Lemma query_update_rejected (vs : list Pg.pval) :
  Pg.query "UPDATE tasks SET data = $datavalues::jsonb WHERE id = $1;" vs d =
  (inl Pg.syntax_error, d).
Proof. reflexivity. Qed.

(** With a positional parameter in that place the insert runs. *)
Lemma query_insert_positional (b : bag) :
  Pg.tasks d !! Pg.tasks_id_seq d = None →
  Pg.query "INSERT INTO tasks (data) VALUES ($1::jsonb) RETURNING id;" [Pg.PDoc b] d =
  (inr (Pg.mkResult [Pg.mkTuple (Some (Pg.tasks_id_seq d)) None None] 1),
   Pg.mkDb (<[Pg.tasks_id_seq d := b]> (Pg.tasks d)) (Pg.tasks_id_seq d + 1)).
Proof.
  intros Hfree. change (Pg.query _ _ d) with (Pg.exec Pg.InsertData [Pg.PDoc b] d).
  simpl. rewrite Hfree. reflexivity.
Qed.

End Statements.

(** ** The handlers, case by case *)

Section Handlers.
Local Open Scope string_scope.

Lemma world_eta (w : world) : mkWorld (database w) (cache w) = w.
Proof. destruct w; reflexivity. Qed.

Lemma db_delete_absent (d : Pg.db) (id : Z) :
  Pg.tasks d !! id = None →
  Pg.mkDb (delete id (Pg.tasks d)) (Pg.tasks_id_seq d) = d.
Proof. intros H. rewrite delete_id by exact H. destruct d; reflexivity. Qed.

(** [POST /tasks] answers 400 when the guard fires and 500 otherwise;
    it leaves both services as they were. *)
Lemma post_tasks_cases (b : bag) (w : world) :
  post_tasks b w =
  (if title_rejected (b !! js "title")
   then error_response 400 "Title is required"
   else error_response 500 "Server error", w).
Proof.
  unfold post_tasks. destruct (title_rejected _); [reflexivity |].
  unfold try_catch, bind, pool_query. rewrite query_insert_rejected.
  rewrite world_eta. reflexivity.
Qed.

Lemma get_task_found (id : Z) (b : bag) (w : world) :
  Pg.tasks (database w) !! id = Some b →
  get_task id w =
  (mkResponse 200 (Some (task_json (Pg.mkTuple (Some id) (Some b) None))), w).
Proof.
  intros H. unfold get_task, try_catch, bind, pool_query.
  rewrite query_select_by_id, (reads_as_id_row _ id b H).
  unfold Pg.select_by_id. rewrite H. simpl.
  rewrite world_eta. reflexivity.
Qed.

Lemma get_task_missing (id : Z) (w : world) :
  Pg.tasks (database w) !! id = None →
  get_task id w = (no_row_answer id, w).
Proof.
  intros H. unfold get_task, try_catch, bind, pool_query, no_row_answer.
  rewrite query_select_by_id, (reads_as_id_no_row _ id H).
  unfold Pg.select_by_id. rewrite H.
  destruct (Pg.in_int4 id); simpl; rewrite world_eta; reflexivity.
Qed.

Lemma get_tasks_world (w : world) : (get_tasks w).2 = w.
Proof.
  unfold get_tasks, try_catch, bind, pool_query. rewrite query_select_all.
  simpl. apply world_eta.
Qed.

(** [PUT /tasks/:id] answers 500 for an id that has a row, and what an
    id with no row gets otherwise; it leaves both services as they
    were. *)
Lemma put_task_cases (id : Z) (b : bag) (w : world) :
  put_task id b w =
  (match Pg.tasks (database w) !! id with
   | Some _ => error_response 500 "Server error"
   | None => no_row_answer id
   end, w).
Proof.
  unfold put_task, try_catch, bind, pool_query, no_row_answer.
  rewrite query_select_by_id. unfold Pg.select_by_id, Pg.reads_as_id.
  destruct (Pg.tasks (database w) !! id) as [b0|]; simpl.
  - rewrite ?query_update_rejected. simpl. rewrite world_eta. reflexivity.
  - destruct (Pg.in_int4 id); simpl; rewrite world_eta; reflexivity.
Qed.

Lemma delete_task_missing (id : Z) (w : world) :
  Pg.tasks (database w) !! id = None →
  delete_task id w = (no_row_answer id, w).
Proof.
  intros H. unfold delete_task, try_catch, bind, pool_query, no_row_answer.
  rewrite query_delete_by_id, (reads_as_id_no_row _ id H).
  unfold Pg.select_by_id. rewrite H.
  destruct (Pg.in_int4 id); simpl.
  - rewrite db_delete_absent by exact H. rewrite world_eta. reflexivity.
  - rewrite world_eta. reflexivity.
Qed.

Lemma no_row_answer_shape (id : Z) :
  no_row_answer id = error_response 404 "Task not found"
  ∨ no_row_answer id = error_response 500 "Server error".
Proof. unfold no_row_answer. destruct (Pg.in_int4 id); auto. Qed.

(** A delete that finds its row removes it and then decrements. *)
Lemma delete_task_found (id : Z) (b : bag) (w : world) :
  Pg.tasks (database w) !! id = Some b →
  delete_task id w =
  let d' := Pg.mkDb (delete id (Pg.tasks (database w))) (Pg.tasks_id_seq (database w)) in
  match Redis.decr taskCount (cache w) with
  | (inr _, c) => (mkResponse 204 None, mkWorld d' c)
  | (inl _, c) => (error_response 500 "Server error", mkWorld d' c)
  end.
Proof.
  intros H. unfold delete_task, try_catch, bind, pool_query.
  rewrite query_delete_by_id, (reads_as_id_row _ id b H).
  unfold Pg.select_by_id. rewrite H. simpl.
  unfold redis_decr, redis_op. simpl.
  destruct (Redis.decr taskCount (cache w)) as [[e|z] c]; reflexivity.
Qed.

Lemma initializeTaskCount_present (v : jsstring) (w : world) :
  cache w !! taskCount = Some v → initializeTaskCount w = (inr tt, w).
Proof.
  intros H. unfold initializeTaskCount, bind, redis_get, Redis.get.
  rewrite H. reflexivity.
Qed.

Lemma initializeTaskCount_absent (w : world) :
  cache w !! taskCount = None →
  Z.of_nat (size (Pg.tasks (database w))) <= Pg.int4_max →
  initializeTaskCount w =
  (inr tt, mkWorld (database w)
             (<[taskCount := String_of_int (Z.of_nat (size (Pg.tasks (database w))))]>
                (cache w))).
Proof.
  intros H Hfit. unfold initializeTaskCount, bind, redis_get, Redis.get.
  rewrite H. unfold pool_query. rewrite query_count. simpl.
  apply Z.leb_le in Hfit. rewrite Hfit. reflexivity.
Qed.

Lemma get_stats_present (v : jsstring) (w : world) :
  cache w !! taskCount = Some v →
  get_stats w = (json_response 200 [(js "taskCount", Some (parseInt v))], w).
Proof.
  intros H. unfold get_stats, try_catch, bind.
  rewrite (initializeTaskCount_present v w H).
  unfold redis_get, Redis.get. rewrite H. reflexivity.
Qed.

Lemma get_stats_absent (w : world) :
  cache w !! taskCount = None →
  Z.of_nat (size (Pg.tasks (database w))) <= Pg.int4_max →
  get_stats w =
  (json_response 200
     [(js "taskCount",
       Some (parseInt (String_of_int (Z.of_nat (size (Pg.tasks (database w)))))))],
   mkWorld (database w)
     (<[taskCount := String_of_int (Z.of_nat (size (Pg.tasks (database w))))]>
        (cache w))).
Proof.
  intros H Hfit. unfold get_stats, try_catch, bind.
  rewrite (initializeTaskCount_absent w H Hfit).
  unfold redis_get, Redis.get. simpl. rewrite lookup_insert_eq. reflexivity.
Qed.

End Handlers.

(** ** The counter and the table move together *)

Section Counter.
Local Open Scope string_scope.

Lemma in_int64_iff (z : Z) :
  Redis.in_int64 z = true ↔ -9223372036854775808 <= z <= 9223372036854775807.
Proof.
  unfold Redis.in_int64, Redis.int64_min, Redis.int64_max.
  rewrite andb_true_iff, !Z.leb_le.
  change (2 ^ 63) with 9223372036854775808. lia.
Qed.

Lemma tally_nonneg hit rqs rs : 0 <= tally hit rqs rs.
Proof.
  revert rs. induction rqs as [|rq rqs IH]; intros [|r rs]; simpl; try lia.
  specialize (IH rs). destruct (hit rq r); lia.
Qed.

Lemma row_count_delete (id : Z) (b : bag) (w : world) (c : Redis.store) :
  Pg.tasks (database w) !! id = Some b →
  row_count (mkWorld (Pg.mkDb (delete id (Pg.tasks (database w)))
                        (Pg.tasks_id_seq (database w))) c)
  = row_count w - 1.
Proof.
  intros H. unfold row_count. simpl.
  pose proof (map_size_delete_Some id (Pg.tasks (database w)) (ltac:(eauto))).
  pose proof (map_size_ne_0_lookup_2 (Pg.tasks (database w)) id (ltac:(eauto))).
  lia.
Qed.

Lemma row_count_pos (id : Z) (b : bag) (w : world) :
  Pg.tasks (database w) !! id = Some b → 1 <= row_count w.
Proof.
  intros H. unfold row_count.
  pose proof (map_size_ne_0_lookup_2 (Pg.tasks (database w)) id (ltac:(eauto))).
  lia.
Qed.

(** [DECR] on the numeral of [n]. *)
Lemma decr_numeral (n : Z) (c : Redis.store) :
  -9223372036854775808 < n <= 9223372036854775807 →
  c !! taskCount = Some (String_of_int n) →
  Redis.decr taskCount c = (inr (n - 1), <[taskCount := String_of_int (n - 1)]> c).
Proof.
  intros Hn Hc. unfold Redis.decr, Redis.incr_by. rewrite Hc.
  rewrite integer_of_String by (apply in_int64_iff; lia).
  replace (n + -1) with (n - 1) by lia.
  assert (Redis.in_int64 (n - 1) = true) as -> by (apply in_int64_iff; lia).
  reflexivity.
Qed.

(** One request: the counter stays in step with the table, and the
    table changes by what the answer says. *)
Lemma handle_in_step (rq : request) (w : world) :
  in_step w → row_count w <= 2 ^ 53 →
  in_step (handle rq w).2
  ∧ row_count (handle rq w).2 =
      row_count w + (if created rq (handle rq w).1 then 1 else 0)
                  - (if deleted rq (handle rq w).1 then 1 else 0)
  ∧ created rq (handle rq w).1 = false.
Proof.
  intros Hstep Hsmall. change (2 ^ 53) with 9007199254740992 in Hsmall.
  destruct rq as [b| |id|id b|id|]; cbn [handle created deleted].
  - rewrite post_tasks_cases. simpl.
    destruct (title_rejected _); simpl; (split; [exact Hstep | split; [lia | reflexivity]]).
  - rewrite get_tasks_world. split; [exact Hstep | split; [lia | reflexivity]].
  - destruct (Pg.tasks (database w) !! id) as [b|] eqn:E.
    + rewrite (get_task_found id b w E). simpl. split; [exact Hstep | split; [lia | reflexivity]].
    + rewrite (get_task_missing id w E). simpl. split; [exact Hstep | split; [lia | reflexivity]].
  - rewrite put_task_cases. simpl. split; [exact Hstep | split; [lia | reflexivity]].
  - destruct (Pg.tasks (database w) !! id) as [b|] eqn:E.
    + rewrite (delete_task_found id b w E). cbv zeta.
      pose proof (row_count_pos id b w E) as Hpos.
      unfold in_step in Hstep.
      destruct (cache w !! taskCount) as [v|] eqn:Hc; [subst v | lia].
      rewrite (decr_numeral (row_count w) (cache w)) by (lia || exact Hc).
      simpl. split; [| split; [| reflexivity]].
      * unfold in_step. simpl. rewrite lookup_insert_eq.
        rewrite (row_count_delete id b w _ E). reflexivity.
      * rewrite (row_count_delete id b w _ E). lia.
    + rewrite (delete_task_missing id w E). cbn [fst snd].
      destruct (no_row_answer_shape id) as [-> | ->]; simpl;
        (split; [exact Hstep | split; [lia | reflexivity]]).
  - unfold in_step in Hstep.
    destruct (cache w !! taskCount) as [v|] eqn:Hc.
    + rewrite (get_stats_present v w Hc). simpl.
      split; [| split; [lia | reflexivity]].
      unfold in_step. rewrite Hc. exact Hstep.
    + assert (Z.of_nat (size (Pg.tasks (database w))) <= Pg.int4_max) as Hfit.
      { unfold row_count in Hstep. rewrite Hstep. discriminate. }
      rewrite (get_stats_absent w Hc Hfit). simpl.
      split; [| split; [unfold row_count; simpl; lia | reflexivity]].
      unfold in_step. simpl. rewrite lookup_insert_eq. reflexivity.
Qed.

Lemma serve_cons (rq : request) (rqs : list request) (w : world) :
  serve (rq :: rqs) w =
  ((handle rq w).1 :: (serve rqs (handle rq w).2).1, (serve rqs (handle rq w).2).2).
Proof.
  simpl. destruct (handle rq w) as [r w']. simpl.
  destruct (serve rqs w') as [rs w'']. reflexivity.
Qed.

(** A run of requests: the same, summed. *)
Lemma serve_in_step (rqs : list request) (w : world) :
  in_step w → row_count w <= 2 ^ 53 →
  in_step (serve rqs w).2
  ∧ row_count (serve rqs w).2 =
      row_count w + tally created rqs (serve rqs w).1
                  - tally deleted rqs (serve rqs w).1
  ∧ tally created rqs (serve rqs w).1 = 0.
Proof.
  revert w. induction rqs as [|rq rqs IH]; intros w Hstep Hsmall.
  - simpl. split; [exact Hstep | split; [lia | reflexivity]].
  - rewrite serve_cons. cbn [fst snd tally].
    destruct (handle_in_step rq w Hstep Hsmall) as (Hstep' & Hrows & Hnew).
    rewrite Hnew in *.
    assert (row_count (handle rq w).2 <= 2 ^ 53) as Hsmall'.
    { rewrite Hrows. destruct (deleted rq (handle rq w).1); lia. }
    destruct (IH _ Hstep' Hsmall') as (Hstep'' & Hrows'' & Hnew'').
    split; [exact Hstep'' | split; [| lia]].
    rewrite Hrows'', Hrows. lia.
Qed.

(** In step, [GET /stats] answers the row count. *)
Lemma get_stats_in_step (w : world) :
  in_step w → row_count w <= 2 ^ 53 →
  (get_stats w).1 = json_response 200 [(js "taskCount", Some (JInt (row_count w)))].
Proof.
  intros Hstep Hsmall.
  assert (Z.abs (row_count w) < 2 ^ 53 ∨ row_count w = 2 ^ 53) as Hcases.
  { unfold row_count in *. lia. }
  unfold in_step in Hstep. destruct (cache w !! taskCount) as [v|] eqn:Hc.
  - rewrite (get_stats_present v w Hc). subst v. simpl. f_equal. f_equal.
    destruct Hcases as [Hlt | Heq]; [rewrite parseInt_String by exact Hlt; reflexivity |].
    rewrite Heq. reflexivity.
  - assert (Z.of_nat (size (Pg.tasks (database w))) <= Pg.int4_max) as Hfit.
    { unfold row_count in Hstep. rewrite Hstep. discriminate. }
    rewrite (get_stats_absent w Hc Hfit). simpl.
    fold (row_count w). rewrite Hstep. reflexivity.
Qed.

End Counter.

(** ** The counter key holds a numeral *)

Section CounterNumeral.
Local Open Scope string_scope.

Lemma incr_by_numeral (delta : Z) (c : Redis.store) :
  (∀ v, c !! taskCount = Some v → ∃ z, Redis.in_int64 z = true ∧ v = String_of_int z) →
  ∀ v, (Redis.incr_by delta taskCount c).2 !! taskCount = Some v →
       ∃ z, Redis.in_int64 z = true ∧ v = String_of_int z.
Proof.
  intros Hc v. unfold Redis.incr_by.
  destruct (match c !! taskCount with
            | Some v0 => Redis.integer_of v0
            | None => Some 0
            end) as [z|]; [| apply Hc].
  destruct (Redis.in_int64 (z + delta)) eqn:Hr; [| apply Hc].
  simpl. rewrite lookup_insert_eq. intros [= <-]. eauto.
Qed.

Lemma initializeTaskCount_overflow (w : world) :
  cache w !! taskCount = None →
  Pg.int4_max < Z.of_nat (size (Pg.tasks (database w))) →
  initializeTaskCount w = (inl (PgError Pg.numeric_value_out_of_range), w).
Proof.
  intros H Hbig. unfold initializeTaskCount, bind, redis_get, Redis.get.
  rewrite H. unfold pool_query. rewrite query_count. simpl.
  apply Z.leb_gt in Hbig. rewrite Hbig. simpl. rewrite world_eta. reflexivity.
Qed.

Lemma handle_counter_ok (rq : request) (w : world) :
  counter_ok w → counter_ok (handle rq w).2.
Proof.
  intros Hok. destruct rq as [b| |id|id b|id|]; cbn [handle].
  - rewrite post_tasks_cases. exact Hok.
  - rewrite get_tasks_world. exact Hok.
  - destruct (Pg.tasks (database w) !! id) as [b|] eqn:E.
    + rewrite (get_task_found id b w E). exact Hok.
    + rewrite (get_task_missing id w E). exact Hok.
  - rewrite put_task_cases. exact Hok.
  - destruct (Pg.tasks (database w) !! id) as [b|] eqn:E.
    + rewrite (delete_task_found id b w E). cbv zeta.
      pose proof (incr_by_numeral (-1) (cache w) Hok) as Hnew.
      unfold Redis.decr.
      destruct (Redis.incr_by (-1) taskCount (cache w)) as [[e|z] c]; exact Hnew.
    + rewrite (delete_task_missing id w E). exact Hok.
  - destruct (cache w !! taskCount) as [v|] eqn:Hc.
    + rewrite (get_stats_present v w Hc). exact Hok.
    + destruct (Z.le_gt_cases (Z.of_nat (size (Pg.tasks (database w)))) Pg.int4_max)
        as [Hfit | Hbig].
      * rewrite (get_stats_absent w Hc Hfit). intros v. simpl.
        rewrite lookup_insert_eq. intros [= <-].
        eexists; split; [| reflexivity].
        apply in_int64_iff. unfold Pg.int4_max in Hfit. lia.
      * unfold get_stats, try_catch, bind.
        rewrite (initializeTaskCount_overflow w Hc Hbig). exact Hok.
Qed.

Lemma serve_counter_ok (rqs : list request) (w : world) :
  counter_ok w → counter_ok (serve rqs w).2.
Proof.
  revert w. induction rqs as [|rq rqs IH]; intros w Hok; [exact Hok |].
  rewrite serve_cons. apply IH, handle_counter_ok, Hok.
Qed.

Lemma get_stats_integer (w : world) :
  counter_ok w → row_count w <= Pg.int4_max →
  ∃ k, (get_stats w).1 = json_response 200 [(js "taskCount", Some (JInt k))].
Proof.
  intros Hok Hfit. destruct (cache w !! taskCount) as [v|] eqn:Hc.
  - rewrite (get_stats_present v w Hc).
    destruct (Hok v Hc) as (z & Hz & ->).
    destruct (parseInt_int64 z Hz) as [k Hk]. exists k. simpl. rewrite Hk. reflexivity.
  - rewrite (get_stats_absent w Hc Hfit).
    destruct (parseInt_int64 (row_count w)) as [k Hk].
    { apply in_int64_iff. unfold row_count, Pg.int4_max in *. lia. }
    exists k. simpl. fold (row_count w). rewrite Hk. reflexivity.
Qed.

Lemma title_invalid_rejected (b : bag) :
  title_invalid b → title_rejected (b !! js "title") = true.
Proof.
  unfold title_invalid, title_rejected.
  destruct (b !! js "title") as [[|b0|z|s|l|m]|]; simpl; try reflexivity.
  - intros _. rewrite orb_true_r. reflexivity.
  - intros _. rewrite orb_true_r. reflexivity.
  - intros Hws. rewrite (trim_ws s Hws). simpl. apply orb_true_r.
Qed.

Lemma accepted_title_is_string (t : option json) :
  title_rejected t = false → ∃ s, t = Some (JStr s).
Proof.
  unfold title_rejected. destruct t as [[|b0|z|s|l|m]|]; simpl; try discriminate; eauto.
  all: rewrite ?orb_true_r; discriminate.
Qed.

Lemma payload_keys (s : jsstring) (description status : option json) :
  dom (payload (Some (JStr s)) description status) = created_keys.
Proof.
  unfold payload, object, created_keys. simpl.
  rewrite !dom_insert_L, dom_empty_L. set_solver.
Qed.

End CounterNumeral.

(** ** The claims *)

Section Claims.
Import Further.
Local Open Scope string_scope.




(** C2.  [POST /tasks] with the valid title "Buy milk" on a new
    deployment: the title passes the guard, the insert is rejected by
    the server, and the handler answers 500 with no row stored and the
    counter key not written. *)
Theorem post_valid_title_answers_500 :
  title_rejected (buy_milk !! js "title") = false
  ∧ post_tasks buy_milk empty_world
    = (error_response 500 "Server error", empty_world).
Proof. split; vm_compute; reflexivity. Qed.

(** C3.  [PUT /tasks/1] with [{status: "done"}] on the stored task
    [{title: "x", description: "y", status: "pending"}]: the merged
    bag is [{title: "x", description: "y", status: "done"}], the
    update is rejected by the server, the handler answers 500 and the
    stored bag is still the old one. *)
Theorem put_merges_but_does_not_persist :
  status_done ∪ spread (Some (xy "pending")) = xy "done"
  ∧ put_task 1 status_done one_task_world
    = (error_response 500 "Server error", one_task_world)
  ∧ Pg.tasks (database (put_task 1 status_done one_task_world).2) !! 1
    = Some (xy "pending").
Proof. repeat split; vm_compute; reflexivity. Qed.

(** C4.  [initializeTaskCount] with the counter key present, whatever
    its value, returns at once and writes nothing; with the key absent
    it writes the numeral of the row count (a count the statement's
    cast to int holds).  With three rows and the key absent,
    [GET /stats] answers [{taskCount: 3}] and leaves the key holding
    "3". *)
Theorem initializeTaskCount_reads_then_fills (w : world) :
  (∀ v, cache w !! taskCount = Some v → initializeTaskCount w = (inr tt, w))
  ∧ (cache w !! taskCount = None → row_count w <= Pg.int4_max →
     initializeTaskCount w =
     (inr tt, mkWorld (database w)
                (<[taskCount := String_of_int (row_count w)]> (cache w))))
  ∧ (cache w !! taskCount = None → row_count w = 3 →
     get_stats w =
     (json_response 200 [(js "taskCount", Some (JInt 3))],
      mkWorld (database w) (<[taskCount := js "3"]> (cache w)))).
Proof.
  split; [| split].
  - intros v Hv. exact (initializeTaskCount_present v w Hv).
  - intros Hc Hfit. exact (initializeTaskCount_absent w Hc Hfit).
  - intros Hc H3.
    rewrite get_stats_absent; [| exact Hc | fold (row_count w); rewrite H3; discriminate].
    fold (row_count w). rewrite H3. reflexivity.
Qed.

Lemma initializeTaskCount_reads_then_fills_witness :
  (cache stale_zero_world !! taskCount = Some (js "0")
   ∧ initializeTaskCount stale_zero_world = (inr tt, stale_zero_world))
  ∧ (cache three_rows_world !! taskCount = None
     ∧ row_count three_rows_world = 3
     ∧ get_stats three_rows_world =
       (json_response 200 [(js "taskCount", Some (JInt 3))],
        mkWorld (database three_rows_world) {[ taskCount := js "3" ]})).
Proof.
  split.
  - split; [reflexivity |].
    apply (proj1 (initializeTaskCount_reads_then_fills stale_zero_world) (js "0")).
    reflexivity.
  - split; [reflexivity | split; [reflexivity |]].
    apply (proj2 (proj2 (initializeTaskCount_reads_then_fills three_rows_world)));
      reflexivity.
Defined.

(** C5.  [POST /tasks] with a title that is missing, blank, made of
    white space only, or not a string answers 400
    [{error: "Title is required"}] and leaves the table and the cache
    as they were. *)
Theorem post_invalid_title_is_400 (b : bag) (w : world) :
  title_invalid b →
  post_tasks b w = (error_response 400 "Title is required", w).
Proof.
  intros Hbad. rewrite post_tasks_cases, (title_invalid_rejected b Hbad). reflexivity.
Qed.

Lemma post_invalid_title_is_400_witness :
  title_invalid blank_title
  ∧ post_tasks blank_title three_rows_world
    = (error_response 400 "Title is required", three_rows_world).
Proof.
  split; [reflexivity |].
  apply (post_invalid_title_is_400 blank_title three_rows_world). reflexivity.
Defined.

(** C6.  Create then read on a new deployment: the bag built for
    [{title: "Buy milk"}] has the defaults applied, but the create is
    answered 500, returns no id, and [GET /tasks/1] answers 404. *)
Theorem create_then_read_fails :
  payload (buy_milk !! js "title") (buy_milk !! js "description") (buy_milk !! js "status")
    = buy_milk_stored
  ∧ serve [POST_tasks buy_milk; GET_task 1] empty_world
    = ([error_response 500 "Server error"; error_response 404 "Task not found"],
       empty_world).
Proof. split; vm_compute; reflexivity. Qed.

(** C7 (amended).  [DELETE /tasks/:id] for an id with no row answers
    404 [{error: "Task not found"}] when the id is of the range of the
    identifier column, and 500 [{error: "Server error"}] when the
    server refuses it as out of range; in both cases the table and the
    cache, the counter included, are left as they were. *)
Theorem delete_unknown_id_answer (id : Z) (w : world) :
  Pg.tasks (database w) !! id = None →
  delete_task id w =
  (if Pg.in_int4 id
   then error_response 404 "Task not found"
   else error_response 500 "Server error", w).
Proof. intros Hnone. exact (delete_task_missing id w Hnone). Qed.

Lemma delete_unknown_id_answer_witness :
  Pg.tasks (database stale_zero_world) !! 7 = None
  ∧ delete_task 7 stale_zero_world
    = (error_response 404 "Task not found", stale_zero_world).
Proof.
  split; [reflexivity |].
  apply (delete_unknown_id_answer 7 stale_zero_world). reflexivity.
Defined.

(** C7, as stated, fails at the id 9223372036854775808, which has no
    row and is beyond every integer type of the server: the answer is
    500, not 404. *)
Lemma delete_unknown_id_is_not_always_404 :
  Pg.tasks (database stale_zero_world) !! 9223372036854775808 = None
  ∧ delete_task 9223372036854775808 stale_zero_world
    = (error_response 500 "Server error", stale_zero_world)
  ∧ status (delete_task 9223372036854775808 stale_zero_world).1 ≠ 404.
Proof.
  split; [reflexivity | split; [vm_compute; reflexivity |]].
  vm_compute. discriminate.
Qed.

(** C8.  [PUT /tasks/:id] with the body [{}] on an existing task: the
    merge of the stored bag with [{}] is the stored bag, and the bag
    stored after the request is the bag stored before it. *)
Theorem put_empty_body_keeps_data (id : Z) (b : bag) (w : world) :
  Pg.tasks (database w) !! id = Some b →
  (∅ : bag) ∪ spread (Some b) = b
  ∧ Pg.tasks (database (put_task id ∅ w).2) !! id = Some b.
Proof.
  intros Hb. split.
  - simpl. apply (left_id_L ∅ (∪)).
  - rewrite put_task_cases. exact Hb.
Qed.

Lemma put_empty_body_keeps_data_witness :
  Pg.tasks (database one_task_world) !! 1 = Some (xy "pending")
  ∧ Pg.tasks (database (put_task 1 ∅ one_task_world).2) !! 1 = Some (xy "pending").
Proof.
  split; [reflexivity |].
  apply (put_empty_body_keeps_data 1 (xy "pending") one_task_world). reflexivity.
Defined.

(** C9.  If the counter key, when present, holds the decimal numeral
    of an integer, then it still does after any run of requests, and
    [GET /stats] then answers 200 with an integer [taskCount] (the row
    count being one the statement's cast to int holds, should the key
    have to be filled). *)
Theorem counter_stays_a_numeral (rqs : list request) (w : world) :
  counter_ok w →
  counter_ok (serve rqs w).2
  ∧ (row_count (serve rqs w).2 <= Pg.int4_max →
     ∃ k, (get_stats (serve rqs w).2).1 =
          json_response 200 [(js "taskCount", Some (JInt k))]).
Proof.
  intros Hok. pose proof (serve_counter_ok rqs w Hok) as Hok'.
  split; [exact Hok' |]. intros Hfit. exact (get_stats_integer _ Hok' Hfit).
Qed.

Lemma counter_stays_a_numeral_witness :
  let rqs := [DELETE_task 2; GET_stats; PUT_task 1 status_done; DELETE_task 3] in
  counter_ok three_rows_world
  ∧ counter_ok (serve rqs three_rows_world).2
  ∧ ∃ k, (get_stats (serve rqs three_rows_world).2).1 =
         json_response 200 [(js "taskCount", Some (JInt k))].
Proof.
  intros rqs.
  assert (counter_ok three_rows_world) as Hok by (intros v Hv; discriminate Hv).
  split; [exact Hok |].
  destruct (counter_stays_a_numeral rqs three_rows_world Hok) as [H1 H2].
  split; [exact H1 | apply H2; discriminate].
Defined.

(** C10.  [POST /tasks] with [{title: "Buy milk", owner: "me"}] on a
    new deployment: the title passes the guard and the bag built for
    the insert has exactly the keys title, description and status, the
    key owner being dropped; but the insert is rejected, the answer is
    500 and the table holds no row afterwards: no bag is persisted. *)
Theorem post_with_extra_key_stores_nothing :
  title_rejected (buy_milk_owned !! js "title") = false
  ∧ dom (payload (buy_milk_owned !! js "title")
                 (buy_milk_owned !! js "description")
                 (buy_milk_owned !! js "status")) = created_keys
  ∧ post_tasks buy_milk_owned empty_world
    = (error_response 500 "Server error", empty_world)
  ∧ Pg.tasks (database (post_tasks buy_milk_owned empty_world).2) = ∅.
Proof. repeat split; vm_compute; reflexivity. Qed.

End Claims.

(** ** Further properties of the handlers *)

Section Reads.
Import Further.
Local Open Scope string_scope.

Lemma task_json_entry (id : Z) (b : bag) :
  task_json (Pg.task_tuple (id, b)) = task_entry id b.
Proof.
  unfold task_json, task_entry, object, Pg.task_tuple. simpl.
  rewrite insert_empty. reflexivity.
Qed.

Lemma task_entry_inj (id id' : Z) (b b' : bag) :
  task_entry id b = task_entry id' b' → id = id' ∧ b = b'.
Proof.
  unfold task_entry. intros Hj.
  assert (∀ k, ({[ js "id" := JInt id; js "data" := JObj b ]} : bag) !! k
               = ({[ js "id" := JInt id'; js "data" := JObj b' ]} : bag) !! k) as H.
  { intros k.
    exact (f_equal (fun j => match j with JObj m => m !! k | _ => None end) Hj). }
  split.
  - specialize (H (js "id")). rewrite !lookup_insert_eq in H.
    unfold JInt, inject_Z in H. congruence.
  - specialize (H (js "data")).
    rewrite !lookup_insert_ne, !lookup_singleton_eq in H by discriminate.
    congruence.
Qed.

(** X1.  [GET /tasks/:id] answers 200 with [{id, data}], [data] being
    the stored bag as it is, when the id has a row; when it has none it
    answers 404 [{error: "Task not found"}] for an id of the range of
    the identifier column and 500 [{error: "Server error"}] for an id
    outside it; in every case it changes neither the table nor the
    cache. *)
Theorem get_task_reads_row (id : Z) (w : world) :
  get_task id w =
  (match Pg.tasks (database w) !! id with
   | Some b => mkResponse 200 (Some (task_entry id b))
   | None =>
       if Pg.in_int4 id
       then error_response 404 "Task not found"
       else error_response 500 "Server error"
   end, w).
Proof.
  destruct (Pg.tasks (database w) !! id) as [b|] eqn:E.
  - rewrite (get_task_found id b w E). rewrite <- task_json_entry. reflexivity.
  - exact (get_task_missing id w E).
Qed.

(** X2.  [GET /tasks] answers 200 with an array that has one entry per
    row: as many entries as rows, and [{id, data: b}] is an entry exactly
    when the row [id] holds the bag [b]; it changes neither the table
    nor the cache. *)
Theorem get_tasks_lists_rows (w : world) :
  ∃ l : list json,
    get_tasks w = (mkResponse 200 (Some (JArr l)), w)
    ∧ length l = size (Pg.tasks (database w))
    ∧ ∀ id b, task_entry id b ∈ l ↔ Pg.tasks (database w) !! id = Some b.
Proof.
  exists ((fun r => task_entry r.1 r.2) <$> map_to_list (Pg.tasks (database w))).
  split; [| split].
  - unfold get_tasks, try_catch, bind, pool_query. rewrite query_select_all.
    cbn [Pg.exec Pg.rows ret]. rewrite world_eta. do 4 f_equal.
    rewrite <- list_fmap_compose. apply list_fmap_ext.
    intros i [k b] _. apply task_json_entry.
  - rewrite length_fmap. apply length_map_to_list.
  - intros id b. rewrite list_elem_of_fmap. split.
    + intros ([k b'] & Heq & Hin). apply task_entry_inj in Heq as [-> ->].
      apply elem_of_map_to_list. exact Hin.
    + intros Hb. exists (id, b). split; [reflexivity |].
      apply elem_of_map_to_list. exact Hb.
Qed.

End Reads.

Section Deletes.
Import Further.
Local Open Scope string_scope.

Lemma decr_failure_keeps_store (c : Redis.store) (v : jsstring) :
  c !! taskCount = Some v → Redis.integer_of v = None →
  Redis.decr taskCount c = (inl Redis.not_an_integer, c).
Proof.
  intros Hc Hv. unfold Redis.decr, Redis.incr_by. rewrite Hc, Hv. reflexivity.
Qed.

Lemma decr_missing_key (c : Redis.store) :
  c !! taskCount = None →
  Redis.decr taskCount c = (inr (-1), <[taskCount := js "-1"]> c).
Proof.
  intros Hc. unfold Redis.decr, Redis.incr_by. rewrite Hc. reflexivity.
Qed.

Lemma delete_task_counted (id z : Z) (b : bag) (w : world) :
  Pg.tasks (database w) !! id = Some b →
  cache w !! taskCount = Some (String_of_int z) →
  Redis.int64_min < z <= Redis.int64_max →
  delete_task id w =
    (mkResponse 204 None,
     mkWorld (without id (database w))
             (<[taskCount := String_of_int (z - 1)]> (cache w))).
Proof.
  intros Hb Hc Hz. rewrite (delete_task_found id b w Hb). cbv zeta.
  rewrite (decr_numeral z (cache w)); [reflexivity | | exact Hc].
  unfold Redis.int64_min, Redis.int64_max in Hz.
  change (2 ^ 63) with 9223372036854775808 in Hz. lia.
Qed.

(** X3.  [DELETE /tasks/:id] on an id that has a row, the counter key
    holding the numeral of [z] (any integer of the 64-bit range but the
    least): the answer is 204 with no body, the row is gone, every other
    row is as it was, and the key holds the numeral of [z - 1]. *)
Theorem delete_removes_row_and_decrements (id z : Z) (b : bag) (w : world) :
  Pg.tasks (database w) !! id = Some b →
  cache w !! taskCount = Some (String_of_int z) →
  Redis.int64_min < z <= Redis.int64_max →
  delete_task id w =
    (mkResponse 204 None,
     mkWorld (without id (database w))
             (<[taskCount := String_of_int (z - 1)]> (cache w)))
  ∧ Pg.tasks (without id (database w)) !! id = None
  ∧ ∀ j, j ≠ id →
      Pg.tasks (without id (database w)) !! j = Pg.tasks (database w) !! j.
Proof.
  intros Hb Hc Hz. split; [| split].
  - exact (delete_task_counted id z b w Hb Hc Hz).
  - unfold without. simpl. apply lookup_delete_eq.
  - intros j Hj. unfold without. simpl. apply lookup_delete_ne. congruence.
Qed.

Lemma delete_removes_row_and_decrements_witness :
  Pg.tasks (database counted_world) !! 2 = Some (xy "done")
  ∧ delete_task 2 counted_world =
    (mkResponse 204 None,
     mkWorld (without 2 (database counted_world))
             (<[taskCount := String_of_int (3 - 1)]> (cache counted_world))).
Proof.
  split; [reflexivity |].
  apply (delete_removes_row_and_decrements 2 3 (xy "done") counted_world);
    [reflexivity | reflexivity | split; [reflexivity | discriminate]].
Defined.

(** X4.  [DELETE /tasks/:id] on an id that has a row while the counter
    key is missing: the answer is 204 and the key is created holding
    "-1", however many rows the table holds; [GET /stats] right after
    answers [{taskCount: -1}]. *)
Theorem delete_without_counter_writes_minus_one (id : Z) (b : bag) (w : world) :
  Pg.tasks (database w) !! id = Some b →
  cache w !! taskCount = None →
  delete_task id w =
    (mkResponse 204 None,
     mkWorld (without id (database w)) (<[taskCount := js "-1"]> (cache w)))
  ∧ (get_stats (delete_task id w).2).1 =
    json_response 200 [(js "taskCount", Some (JInt (-1)))].
Proof.
  intros Hb Hc.
  assert (delete_task id w =
          (mkResponse 204 None,
           mkWorld (without id (database w)) (<[taskCount := js "-1"]> (cache w)))) as E.
  { rewrite (delete_task_found id b w Hb). cbv zeta.
    rewrite (decr_missing_key (cache w) Hc). reflexivity. }
  split; [exact E |]. rewrite E. cbn [snd].
  rewrite (get_stats_present (js "-1")); [reflexivity |].
  cbn [cache]. apply lookup_insert_eq.
Qed.

Lemma delete_without_counter_writes_minus_one_witness :
  Pg.tasks (database three_rows_world) !! 1 = Some (xy "pending")
  ∧ cache three_rows_world !! taskCount = None
  ∧ (get_stats (delete_task 1 three_rows_world).2).1 =
    json_response 200 [(js "taskCount", Some (JInt (-1)))].
Proof.
  split; [reflexivity | split; [reflexivity |]].
  apply (delete_without_counter_writes_minus_one 1 (xy "pending") three_rows_world);
    reflexivity.
Defined.

(** X5.  [DELETE /tasks/:id] on an id that has a row while the counter
    key holds something the cache does not read as an integer: the row
    is deleted all the same, the answer is 500
    [{error: "Server error"}], and the cache is as it was. *)
Theorem delete_survives_counter_error (id : Z) (b : bag) (v : jsstring) (w : world) :
  Pg.tasks (database w) !! id = Some b →
  cache w !! taskCount = Some v →
  Redis.integer_of v = None →
  delete_task id w =
    (error_response 500 "Server error", mkWorld (without id (database w)) (cache w)).
Proof.
  intros Hb Hc Hv. rewrite (delete_task_found id b w Hb). cbv zeta.
  rewrite (decr_failure_keeps_store (cache w) v Hc Hv). reflexivity.
Qed.

Lemma delete_survives_counter_error_witness :
  Pg.tasks (database garbled_world) !! 3 = Some buy_milk_stored
  ∧ Redis.integer_of (js "three") = None
  ∧ delete_task 3 garbled_world =
    (error_response 500 "Server error",
     mkWorld (without 3 (database garbled_world)) (cache garbled_world)).
Proof.
  split; [reflexivity | split; [reflexivity |]].
  apply (delete_survives_counter_error 3 buy_milk_stored (js "three") garbled_world);
    reflexivity.
Defined.

(** X6.  After [DELETE /tasks/:id], whatever it answered, the id has no
    row; a second [DELETE] of the id changes nothing and answers 404
    (500 for an id outside the range of the identifier column), and so
    does [GET /tasks/:id]. *)
Theorem delete_then_gone (id : Z) (w : world) :
  Pg.tasks (database (delete_task id w).2) !! id = None
  ∧ delete_task id (delete_task id w).2
    = (if Pg.in_int4 id
       then error_response 404 "Task not found"
       else error_response 500 "Server error", (delete_task id w).2)
  ∧ get_task id (delete_task id w).2
    = (if Pg.in_int4 id
       then error_response 404 "Task not found"
       else error_response 500 "Server error", (delete_task id w).2).
Proof.
  assert (Pg.tasks (database (delete_task id w).2) !! id = None) as Hgone.
  { destruct (Pg.tasks (database w) !! id) as [b|] eqn:E.
    - rewrite (delete_task_found id b w E). cbv zeta.
      destruct (Redis.decr taskCount (cache w)) as [[e|z] c]; simpl;
        apply lookup_delete_eq.
    - rewrite (delete_task_missing id w E). exact E. }
  split; [exact Hgone | split].
  - exact (delete_task_missing id _ Hgone).
  - exact (get_task_missing id _ Hgone).
Qed.

End Deletes.

Section Stats.
Import Further.
Local Open Scope string_scope.

(** What [GET /stats] does, in its three cases. *)
Lemma get_stats_cases (w : world) :
  (∃ v, cache w !! taskCount = Some v
        ∧ get_stats w = (json_response 200 [(js "taskCount", Some (parseInt v))], w))
  ∨ (cache w !! taskCount = None
     ∧ get_stats w =
       (json_response 200
          [(js "taskCount", Some (parseInt (String_of_int (row_count w))))],
        mkWorld (database w) (<[taskCount := String_of_int (row_count w)]> (cache w))))
  ∨ (cache w !! taskCount = None
     ∧ get_stats w = (error_response 500 "Server error", w)).
Proof.
  destruct (cache w !! taskCount) as [v|] eqn:Hc.
  - left. exists v. split; [reflexivity | exact (get_stats_present v w Hc)].
  - destruct (Z.le_gt_cases (Z.of_nat (size (Pg.tasks (database w)))) Pg.int4_max)
      as [Hfit | Hbig].
    + right. left. split; [reflexivity | exact (get_stats_absent w Hc Hfit)].
    + right. right. split; [reflexivity |].
      unfold get_stats, try_catch, bind.
      rewrite (initializeTaskCount_overflow w Hc Hbig). reflexivity.
Qed.

(** X7.  [GET /stats] twice in a row: the second call gives the answer
    of the first and leaves the table and the cache as the first left
    them. *)
Theorem get_stats_twice (w : world) :
  get_stats (get_stats w).2 = ((get_stats w).1, (get_stats w).2).
Proof.
  destruct (get_stats_cases w) as [(v & Hc & E) | [(Hc & E) | (Hc & E)]]; rewrite E; cbn [fst snd].
  - exact E.
  - apply get_stats_present. cbn [cache]. apply lookup_insert_eq.
  - exact E.
Qed.

(** X8.  When [GET /stats] answers 200, the counter key is present
    afterwards and the [taskCount] of the answer is [parseInt] of the
    string the key then holds. *)
Theorem get_stats_answers_the_key (w : world) :
  status (get_stats w).1 = 200 →
  ∃ v, cache (get_stats w).2 !! taskCount = Some v
       ∧ (get_stats w).1 = json_response 200 [(js "taskCount", Some (parseInt v))].
Proof.
  intros H200.
  destruct (get_stats_cases w) as [(v & Hc & E) | [(Hc & E) | (Hc & E)]];
    rewrite E in *; cbn [fst snd] in *.
  - exists v. split; [exact Hc | reflexivity].
  - eexists. split; [cbn [cache]; apply lookup_insert_eq | reflexivity].
  - discriminate H200.
Qed.

Lemma get_stats_answers_the_key_witness :
  status (get_stats three_rows_world).1 = 200
  ∧ ∃ v, cache (get_stats three_rows_world).2 !! taskCount = Some v
         ∧ (get_stats three_rows_world).1
           = json_response 200 [(js "taskCount", Some (parseInt v))].
Proof.
  split; [reflexivity |].
  apply (get_stats_answers_the_key three_rows_world). reflexivity.
Defined.

(** X9.  [GET /stats] with a counter key that holds no leading decimal
    digit (after white space and a sign): the answer is still 200, with
    [taskCount: null], and nothing is changed or repaired. *)
Theorem get_stats_of_garbled_counter (v : jsstring) (w : world) :
  cache w !! taskCount = Some v →
  parseInt_value v = None →
  get_stats w = (json_response 200 [(js "taskCount", Some JNull)], w).
Proof.
  intros Hc Hv. rewrite (get_stats_present v w Hc).
  unfold parseInt. rewrite Hv. reflexivity.
Qed.

Lemma get_stats_of_garbled_counter_witness :
  cache garbled_world !! taskCount = Some (js "three")
  ∧ get_stats garbled_world
    = (json_response 200 [(js "taskCount", Some JNull)], garbled_world).
Proof.
  split; [reflexivity |].
  apply (get_stats_of_garbled_counter (js "three") garbled_world); reflexivity.
Defined.

End Stats.

Section Writes.
Import Further.
Local Open Scope string_scope.

Lemma trim_start_nil (s : jsstring) : trim_start s = [] → forallb is_ws s = true.
Proof.
  induction s as [|c r IH]; simpl; [reflexivity |].
  destruct (is_ws c); [exact IH | discriminate].
Qed.

Lemma trim_start_head (s r : jsstring) (c : N) :
  trim_start s = c :: r → is_ws c = false.
Proof.
  induction s as [|a t IH]; simpl; [discriminate |].
  destruct (is_ws a) eqn:Ha; [exact IH |]. intros [= <- _]. exact Ha.
Qed.

Lemma trim_nil (s : jsstring) : trim s = [] → forallb is_ws s = true.
Proof.
  unfold trim, trim_end. intros H.
  assert (trim_start (rev (trim_start s)) = []) as H1.
  { rewrite <- (rev_involutive (trim_start (rev (trim_start s)))), H. reflexivity. }
  apply trim_start_nil in H1.
  destruct (trim_start s) as [|c r] eqn:E; [exact (trim_start_nil s E) |].
  pose proof (trim_start_head s r c E) as Hc.
  rewrite forallb_forall in H1. specialize (H1 c).
  rewrite H1 in Hc; [discriminate |]. apply in_rev. rewrite rev_involutive. left. reflexivity.
Qed.

Lemma title_rejected_invalid (b : bag) :
  title_rejected (b !! js "title") = true → title_invalid b.
Proof.
  unfold title_invalid, title_rejected.
  destruct (b !! js "title") as [[|b0|z|s|l|m]|]; simpl; try (intros _; exact I).
  destruct s as [|c r]; [reflexivity |]. cbn [negb orb].
  intros H. apply trim_nil. destruct (trim (c :: r)); [reflexivity | discriminate H].
Qed.

(** X10.  [POST /tasks] has two outcomes and changes nothing in either:
    400 [{error: "Title is required"}] exactly when the title is
    missing, not a string, empty or all white space, and 500
    [{error: "Server error"}] for every other body. *)
Theorem post_answers_400_or_500 (b : bag) (w : world) :
  (title_invalid b
   ∧ post_tasks b w = (error_response 400 "Title is required", w))
  ∨ (¬ title_invalid b
     ∧ post_tasks b w = (error_response 500 "Server error", w)).
Proof.
  rewrite post_tasks_cases.
  destruct (title_rejected (b !! js "title")) eqn:E.
  - left. split; [apply title_rejected_invalid, E | reflexivity].
  - right. split; [| reflexivity].
    intros Hbad. rewrite (title_invalid_rejected b Hbad) in E. discriminate E.
Qed.

(** X11.  [PUT /tasks/:id], for every body: 500
    [{error: "Server error"}] when the id has a row, and when it has
    none 404 [{error: "Task not found"}] for an id of the range of the
    identifier column and 500 for an id outside it; the table and the
    cache are unchanged in every case, so no stored task is ever
    altered. *)
Theorem put_answers_404_or_500 (id : Z) (b : bag) (w : world) :
  put_task id b w =
  (match Pg.tasks (database w) !! id with
   | Some _ => error_response 500 "Server error"
   | None =>
       if Pg.in_int4 id
       then error_response 404 "Task not found"
       else error_response 500 "Server error"
   end, w).
Proof. exact (put_task_cases id b w). Qed.

Lemma handle_alone (rq : request) (w : world) :
  leaves_alone rq = true → (handle rq w).2 = w.
Proof.
  destruct rq as [b| |id|id b|id|]; cbn [handle leaves_alone]; try discriminate; intros _.
  - rewrite post_tasks_cases. reflexivity.
  - apply get_tasks_world.
  - destruct (Pg.tasks (database w) !! id) as [b|] eqn:E.
    + rewrite (get_task_found id b w E). reflexivity.
    + rewrite (get_task_missing id w E). reflexivity.
  - rewrite put_task_cases. reflexivity.
Qed.

(** X12.  A run made only of [POST /tasks], [GET /tasks],
    [GET /tasks/:id] and [PUT /tasks/:id] leaves the table and the cache
    exactly as they were. *)
Theorem reads_and_refused_writes_change_nothing (rqs : list request) (w : world) :
  forallb leaves_alone rqs = true → (serve rqs w).2 = w.
Proof.
  revert w. induction rqs as [|rq rqs IH]; intros w H; [reflexivity |].
  simpl in H. apply andb_true_iff in H as [Hrq Hrest].
  rewrite serve_cons. cbn [snd]. rewrite (handle_alone rq w Hrq). apply IH, Hrest.
Qed.

Lemma reads_and_refused_writes_change_nothing_witness :
  let rqs := [POST_tasks buy_milk; PUT_task 1 status_done; GET_tasks; GET_task 2] in
  forallb leaves_alone rqs = true ∧ (serve rqs counted_world).2 = counted_world.
Proof.
  intros rqs. split; [reflexivity |].
  apply (reads_and_refused_writes_change_nothing rqs counted_world). reflexivity.
Defined.

Lemma decr_store (c : Redis.store) :
  (Redis.decr taskCount c).2 = c
  ∨ ∃ v, (Redis.decr taskCount c).2 = <[taskCount := v]> c.
Proof.
  unfold Redis.decr, Redis.incr_by.
  destruct (match c !! taskCount with
            | Some v0 => Redis.integer_of v0
            | None => Some 0
            end) as [z|]; [| left; reflexivity].
  destruct (Redis.in_int64 (z + -1)); [right; eexists; reflexivity | left; reflexivity].
Qed.

Lemma handle_effect (rq : request) (w : world) :
  (database (handle rq w).2 = database w
   ∨ ∃ id, database (handle rq w).2 = without id (database w))
  ∧ (cache (handle rq w).2 = cache w
     ∨ ∃ v, cache (handle rq w).2 = <[taskCount := v]> (cache w)).
Proof.
  destruct (leaves_alone rq) eqn:Hrq.
  { rewrite (handle_alone rq w Hrq). split; left; reflexivity. }
  destruct rq as [b| |id|id b|id|]; try discriminate Hrq; cbn [handle].
  - destruct (Pg.tasks (database w) !! id) as [b|] eqn:E.
    + rewrite (delete_task_found id b w E). cbv zeta.
      pose proof (decr_store (cache w)) as Hs.
      destruct (Redis.decr taskCount (cache w)) as [[e|z] c]; cbn [snd database cache] in *;
        (split; [right; exists id; reflexivity | exact Hs]).
    + rewrite (delete_task_missing id w E). split; left; reflexivity.
  - destruct (get_stats_cases w) as [(v & Hc & E) | [(Hc & E) | (Hc & E)]];
      rewrite E; cbn [snd database cache]; split; try (left; reflexivity).
    right. eexists. reflexivity.
Qed.

(** X13.  No run of requests adds a row or alters one: every row of the
    table after the run is a row of the table before it, with the same
    bag, and the id sequence has not moved. *)
Theorem table_never_grows (rqs : list request) (w : world) :
  Pg.tasks (database (serve rqs w).2) ⊆ Pg.tasks (database w)
  ∧ Pg.tasks_id_seq (database (serve rqs w).2) = Pg.tasks_id_seq (database w).
Proof.
  revert w. induction rqs as [|rq rqs IH]; intros w; [split; reflexivity |].
  rewrite serve_cons. cbn [snd].
  destruct (IH (handle rq w).2) as [Hsub Hseq].
  destruct (handle_effect rq w) as [[Hd | [id Hd]] _]; rewrite Hd in *.
  - split; assumption.
  - split; [| exact Hseq].
    etrans; [exact Hsub |]. unfold without. cbn [Pg.tasks]. apply delete_subseteq.
Qed.

(** X14.  No run of requests writes, creates or removes a cache key
    other than "taskCount". *)
Theorem other_cache_keys_untouched (rqs : list request) (w : world) (k : jsstring) :
  k ≠ taskCount →
  cache (serve rqs w).2 !! k = cache w !! k.
Proof.
  intros Hk. revert w. induction rqs as [|rq rqs IH]; intros w; [reflexivity |].
  rewrite serve_cons. cbn [snd]. rewrite IH.
  destruct (handle_effect rq w) as [_ [Hc | [v Hc]]]; rewrite Hc; [reflexivity |].
  apply lookup_insert_ne. congruence.
Qed.

Lemma other_cache_keys_untouched_witness :
  let rqs := [DELETE_task 1; GET_stats; DELETE_task 2; POST_tasks buy_milk] in
  js "session" ≠ taskCount
  ∧ cache (serve rqs garbled_world).2 !! js "session" = Some (js "abc").
Proof.
  intros rqs.
  assert (js "session" ≠ taskCount) as Hk by discriminate.
  split; [exact Hk |].
  rewrite (other_cache_keys_untouched rqs garbled_world (js "session") Hk). reflexivity.
Defined.

Lemma get_tasks_lists_rows_shape (w : world) :
  ∃ l, (get_tasks w).1 = mkResponse 200 (Some (JArr l)).
Proof.
  unfold get_tasks, try_catch, bind, pool_query. rewrite query_select_all.
  cbn [Pg.exec Pg.rows ret fst]. eexists. reflexivity.
Qed.

Lemma handle_status (rq : request) (w : world) :
  known_status (status (handle rq w).1) = true
  ∧ (status (handle rq w).1 = 204 ↔ body (handle rq w).1 = None).
Proof.
  assert (∀ r : response,
            (∃ c props, r = json_response c props ∧ known_status c = true ∧ c ≠ 204)
            ∨ (∃ l, r = mkResponse 200 (Some l))
            ∨ r = mkResponse 204 None →
            known_status (status r) = true ∧ (status r = 204 ↔ body r = None)) as Hshape.
  { intros r [(c & props & -> & Hc & Hne) | [(l & ->) | ->]]; simpl.
    - split; [exact Hc | split; [contradiction | discriminate]].
    - split; [reflexivity | split; discriminate].
    - split; [reflexivity | split; reflexivity]. }
  apply Hshape. destruct rq as [b| |id|id b|id|]; cbn [handle].
  - rewrite post_tasks_cases. cbn [fst]. left.
    destruct (title_rejected _); do 2 eexists; (split; [reflexivity | split; [reflexivity | discriminate]]).
  - destruct (get_tasks_lists_rows_shape w) as [l ->]. right. left. eexists. reflexivity.
  - destruct (Pg.tasks (database w) !! id) as [b|] eqn:E.
    + rewrite (get_task_found id b w E). right. left. eexists. reflexivity.
    + rewrite (get_task_missing id w E). left. cbn [fst].
      destruct (no_row_answer_shape id) as [-> | ->];
        do 2 eexists; (split; [reflexivity | split; [reflexivity | discriminate]]).
  - rewrite put_task_cases. cbn [fst]. left.
    destruct (Pg.tasks (database w) !! id);
      [| destruct (no_row_answer_shape id) as [-> | ->]];
      do 2 eexists; (split; [reflexivity | split; [reflexivity | discriminate]]).
  - destruct (Pg.tasks (database w) !! id) as [b|] eqn:E.
    + rewrite (delete_task_found id b w E). cbv zeta.
      destruct (Redis.decr taskCount (cache w)) as [[e|z] c]; cbn [fst].
      * left. do 2 eexists. split; [reflexivity | split; [reflexivity | discriminate]].
      * right. right. reflexivity.
    + rewrite (delete_task_missing id w E). left. cbn [fst].
      destruct (no_row_answer_shape id) as [-> | ->];
        do 2 eexists; (split; [reflexivity | split; [reflexivity | discriminate]]).
  - destruct (get_stats_cases w) as [(v & Hc & E) | [(Hc & E) | (Hc & E)]];
      rewrite E; cbn [fst]; left;
      do 2 eexists; (split; [reflexivity | split; [reflexivity | discriminate]]).
Qed.

End Writes.

Section Runs.
Import Further.
Local Open Scope string_scope.

(** X15.  In any run, every answer carries one of the status codes 200,
    204, 400, 404, 500 (so never 201), and an answer has no body exactly
    when its status is 204. *)
Theorem answers_of_a_run (rqs : list request) (w : world) :
  Forall (fun r => known_status (status r) = true
                   ∧ (status r = 204 ↔ body r = None))
         (serve rqs w).1.
Proof.
  revert w. induction rqs as [|rq rqs IH]; intros w; [constructor |].
  rewrite serve_cons. cbn [fst]. constructor; [apply handle_status | apply IH].
Qed.

(** X16.  If the counter agrees with the table (it is the numeral of the
    row count, or it is missing and the table is empty), then after any
    run it still agrees, the table has lost as many rows as deletions
    were answered 204, and [GET /stats] answers the number of rows the
    table then holds. *)
Theorem counter_agrees_with_table (rqs : list request) (w : world) :
  in_step w → row_count w <= 2 ^ 53 →
  in_step (serve rqs w).2
  ∧ row_count (serve rqs w).2 = row_count w - tally deleted rqs (serve rqs w).1
  ∧ (get_stats (serve rqs w).2).1 =
    json_response 200
      [(js "taskCount", Some (JInt (row_count (serve rqs w).2)))].
Proof.
  intros Hstep Hsmall.
  destruct (serve_in_step rqs w Hstep Hsmall) as (Hstep' & Hrows & Hnew).
  pose proof (tally_nonneg deleted rqs (serve rqs w).1) as HM.
  split; [exact Hstep' | split; [lia |]].
  apply get_stats_in_step; [exact Hstep' | lia].
Qed.

Lemma counter_agrees_with_table_witness :
  let rqs := [DELETE_task 2; POST_tasks buy_milk; DELETE_task 9; DELETE_task 3] in
  in_step counted_world
  ∧ row_count (serve rqs counted_world).2 = 1
  ∧ (get_stats (serve rqs counted_world).2).1 =
    json_response 200
      [(js "taskCount", Some (JInt (row_count (serve rqs counted_world).2)))].
Proof.
  intros rqs.
  assert (in_step counted_world) as Hstep by reflexivity.
  split; [exact Hstep | split; [reflexivity |]].
  apply (counter_agrees_with_table rqs counted_world Hstep). discriminate.
Defined.

Lemma handle_counter (rq : request) (z : Z) (w : world) :
  cache w !! taskCount = Some (String_of_int z) →
  Redis.int64_min < z <= Redis.int64_max →
  cache (handle rq w).2 !! taskCount =
  Some (String_of_int (z - (if deleted rq (handle rq w).1 then 1 else 0))).
Proof.
  intros Hc Hz.
  destruct (leaves_alone rq) eqn:Hrq.
  { rewrite (handle_alone rq w Hrq), Hc.
    destruct rq; try discriminate Hrq; cbn [deleted]; rewrite Z.sub_0_r; reflexivity. }
  destruct rq as [b| |id|id b|id|]; try discriminate Hrq; cbn [handle deleted].
  - destruct (Pg.tasks (database w) !! id) as [b|] eqn:E.
    + rewrite (delete_task_counted id z b w E Hc Hz).
      cbn [fst snd cache status]. rewrite lookup_insert_eq. reflexivity.
    + rewrite (delete_task_missing id w E). cbn [fst snd].
      destruct (no_row_answer_shape id) as [-> | ->]; cbn [status error_response json_response];
        rewrite Hc, Z.sub_0_r; reflexivity.
  - rewrite (get_stats_present _ w Hc). cbn [snd]. rewrite Hc, Z.sub_0_r. reflexivity.
Qed.

(** X17.  A counter key that holds the numeral of [z] is never
    recomputed from the table: after any run it holds the numeral of
    [z] minus the number of deletions answered 204, whether or not [z]
    was the row count (the run being short enough not to reach the
    least 64-bit integer). *)
Theorem counter_only_follows_deletes (rqs : list request) (z : Z) (w : world) :
  cache w !! taskCount = Some (String_of_int z) →
  Redis.int64_min + Z.of_nat (length rqs) <= z <= Redis.int64_max →
  cache (serve rqs w).2 !! taskCount =
  Some (String_of_int (z - tally deleted rqs (serve rqs w).1)).
Proof.
  revert z w. induction rqs as [|rq rqs IH]; intros z w Hc Hz.
  - simpl. rewrite Hc, Z.sub_0_r. reflexivity.
  - rewrite serve_cons. cbn [fst snd tally].
    cbn [length] in Hz. rewrite Nat2Z.inj_succ in Hz.
    assert (Redis.int64_min < z <= Redis.int64_max) as Hz1 by lia.
    pose proof (handle_counter rq z w Hc Hz1) as Hc'.
    rewrite (IH _ _ Hc').
    + f_equal. f_equal. lia.
    + destruct (deleted rq (handle rq w).1); lia.
Qed.

Lemma counter_only_follows_deletes_witness :
  let rqs := [DELETE_task 1; GET_stats; DELETE_task 1; DELETE_task 3] in
  cache stale_zero_world !! taskCount = Some (String_of_int 0)
  ∧ cache (serve rqs stale_zero_world).2 !! taskCount =
    Some (String_of_int (0 - tally deleted rqs (serve rqs stale_zero_world).1)).
Proof.
  intros rqs. split; [reflexivity |].
  apply (counter_only_follows_deletes rqs 0 stale_zero_world);
    [reflexivity | split; discriminate].
Defined.

End Runs.
